(** * MCQ scanner backend: shallow embedding of the analyze-sheet handler
    ([api/analyze-sheet.js], the Express route in the server entry point)
    and of [GeminiService.analyzeImage] ([services/geminiService.js]).

    Strings are ASCII strings ([String.string]); JavaScript string values
    produced by [JSON.parse] are lists of UTF-16 code units ([list Z]). *)

From Stdlib Require Import String Ascii ZArith List Bool Lia.
From Stdlib Require DecimalString DecimalZ.
Import ListNotations.
Open Scope string_scope.
Open Scope Z_scope.
Local Set Warnings "-register-all".

(* ------------------------------------------------------------------ *)
(** ** JavaScript string helpers *)

Module JsString.

Definition code (c : ascii) : Z := Z.of_nat (nat_of_ascii c).

(** [String.prototype.toLowerCase] on ASCII characters. *)
Definition lower_char (c : ascii) : ascii :=
  let n := nat_of_ascii c in
  if (65 <=? n)%nat && (n <=? 90)%nat then ascii_of_nat (n + 32) else c.

Fixpoint toLowerCase (s : string) : string :=
  match s with
  | EmptyString => EmptyString
  | String c r => String (lower_char c) (toLowerCase r)
  end.

(** [String.prototype.endsWith]. *)
Definition endsWith (s suffix : string) : bool :=
  let n := String.length s in
  let m := String.length suffix in
  (m <=? n)%nat && String.eqb (substring (n - m) m s) suffix.

(** White space removed by [String.prototype.trim], restricted to ASCII:
    TAB, LF, VT, FF, CR and SPACE. *)
Definition is_trim_space (c : ascii) : bool :=
  let n := nat_of_ascii c in
  ((9 <=? n)%nat && (n <=? 13)%nat) || (n =? 32)%nat.

Fixpoint trim_start (s : string) : string :=
  match s with
  | EmptyString => EmptyString
  | String c r => if is_trim_space c then trim_start r else s
  end.

Fixpoint rev_string (s : string) : string :=
  match s with
  | EmptyString => EmptyString
  | String c r => rev_string r ++ String c EmptyString
  end.

Definition trim_end (s : string) : string :=
  rev_string (trim_start (rev_string s)).

Definition trim (s : string) : string := trim_end (trim_start s).

Definition is_tick (c : ascii) : bool := Ascii.eqb c "`".

Definition is_json (c4 c5 c6 c7 : ascii) : bool :=
  Ascii.eqb c4 "j" && Ascii.eqb c5 "s" && Ascii.eqb c6 "o" && Ascii.eqb c7 "n".

(** [text.replace(/```json|```/g, '')]: a left-to-right scan that, at each
    position, first tries the alternative ["```json"], then ["```"], and
    otherwise keeps the character. *)
Fixpoint replace_fences (s : string) : string :=
  match s with
  | EmptyString => EmptyString
  | String c1 r1 =>
      match r1 with
      | String c2 (String c3 r3) =>
          if is_tick c1 && is_tick c2 && is_tick c3 then
            match r3 with
            | String c4 (String c5 (String c6 (String c7 r7))) =>
                if is_json c4 c5 c6 c7 then replace_fences r7 else replace_fences r3
            | _ => replace_fences r3
            end
          else String c1 (replace_fences r1)
      | _ => String c1 (replace_fences r1)
      end
  end.

End JsString.

(* ------------------------------------------------------------------ *)
(** ** [JSON.parse]

    Values as [JSON.parse] builds them: strings are lists of UTF-16 code
    units, a number keeps its lexeme (its value is a function of it), an
    object keeps its members in source order (the object [JSON.parse]
    builds is a function of that list). *)

Module Json.
Import JsString.

Inductive json : Type :=
| JNull
| JBool (b : bool)
| JNum (lexeme : string)
| JStr (s : list Z)
| JArr (l : list json)
| JObj (m : list (list Z * json)).

Definition dquote : ascii := ascii_of_nat 34.

Definition is_ws (c : ascii) : bool :=
  let n := nat_of_ascii c in
  (n =? 9)%nat || (n =? 10)%nat || (n =? 13)%nat || (n =? 32)%nat.

Fixpoint skip_ws (s : string) : string :=
  match s with
  | String c r => if is_ws c then skip_ws r else s
  | EmptyString => EmptyString
  end.

Definition is_digit (c : ascii) : bool :=
  let n := nat_of_ascii c in (48 <=? n)%nat && (n <=? 57)%nat.

Definition hex_val (c : ascii) : option Z :=
  let n := nat_of_ascii c in
  if (48 <=? n)%nat && (n <=? 57)%nat then Some (Z.of_nat n - 48)
  else if (65 <=? n)%nat && (n <=? 70)%nat then Some (Z.of_nat n - 55)
  else if (97 <=? n)%nat && (n <=? 102)%nat then Some (Z.of_nat n - 87)
  else None.

(** Body of a string literal, after its opening quote. *)
Fixpoint parse_string (s : string) : option (list Z * string) :=
  match s with
  | EmptyString => None
  | String c r =>
      if Ascii.eqb c dquote then Some ([], r)
      else if Ascii.eqb c "\" then
        match r with
        | String "u" (String h1 (String h2 (String h3 (String h4 r')))) =>
            match hex_val h1, hex_val h2, hex_val h3, hex_val h4, parse_string r' with
            | Some a, Some b, Some d, Some e, Some (t, rest) =>
                Some ((((a * 16 + b) * 16 + d) * 16 + e) :: t, rest)
            | _, _, _, _, _ => None
            end
        | String e r' =>
            let unit :=
              if Ascii.eqb e dquote then Some 34
              else if Ascii.eqb e "\" then Some 92
              else if Ascii.eqb e "/" then Some 47
              else if Ascii.eqb e "b" then Some 8
              else if Ascii.eqb e "f" then Some 12
              else if Ascii.eqb e "n" then Some 10
              else if Ascii.eqb e "r" then Some 13
              else if Ascii.eqb e "t" then Some 9
              else None in
            match unit, parse_string r' with
            | Some u, Some (t, rest) => Some (u :: t, rest)
            | _, _ => None
            end
        | EmptyString => None
        end
      else if code c <? 32 then None
      else match parse_string r with
           | Some (t, rest) => Some (code c :: t, rest)
           | None => None
           end
  end.

Fixpoint span_digits (s : string) : string * string :=
  match s with
  | String c r =>
      if is_digit c then let (ds, rest) := span_digits r in (String c ds, rest)
      else (EmptyString, s)
  | EmptyString => (EmptyString, EmptyString)
  end.

(** [1-9][0-9]* | 0 *)
Definition parse_int (s : string) : option (string * string) :=
  match s with
  | String "0" r => Some ("0", r)
  | String c r =>
      if is_digit c then let (ds, rest) := span_digits r in Some (String c ds, rest)
      else None
  | EmptyString => None
  end.

(** One or more digits. *)
Definition parse_digits1 (s : string) : option (string * string) :=
  match span_digits s with
  | (EmptyString, _) => None
  | (ds, rest) => Some (ds, rest)
  end.

Definition parse_frac (s : string) : option (string * string) :=
  match s with
  | String "." r =>
      match parse_digits1 r with
      | Some (ds, rest) => Some ("." ++ ds, rest)
      | None => None
      end
  | _ => Some (EmptyString, s)
  end.

Definition parse_exp (s : string) : option (string * string) :=
  match s with
  | String e r =>
      if Ascii.eqb e "e" || Ascii.eqb e "E" then
        let '(sg, r1) :=
          match r with
          | String "+" r1 => ("+", r1)
          | String "-" r1 => ("-", r1)
          | _ => (EmptyString, r)
          end in
        match parse_digits1 r1 with
        | Some (ds, rest) => Some (String e (sg ++ ds), rest)
        | None => None
        end
      else Some (EmptyString, s)
  | EmptyString => Some (EmptyString, EmptyString)
  end.

Definition parse_number (s : string) : option (string * string) :=
  let '(sg, s1) := match s with
                   | String "-" r => ("-", r)
                   | _ => (EmptyString, s)
                   end in
  match parse_int s1 with
  | Some (i, r1) =>
      match parse_frac r1 with
      | Some (f, r2) =>
          match parse_exp r2 with
          | Some (x, r3) => Some (sg ++ i ++ f ++ x, r3)
          | None => None
          end
      | None => None
      end
  | None => None
  end.

(** The value grammar.  Every nested call receives a strictly shorter
    suffix of the input, so [S (length s)] units of fuel are enough. *)
Fixpoint parse_value (fuel : nat) (s : string) : option (json * string) :=
  match fuel with
  | O => None
  | S f =>
      match skip_ws s with
      | String "{" r =>
          match skip_ws r with
          | String "}" r' => Some (JObj [], r')
          | _ => parse_members f r []
          end
      | String "[" r =>
          match skip_ws r with
          | String "]" r' => Some (JArr [], r')
          | _ => parse_elems f r []
          end
      | String "t" (String "r" (String "u" (String "e" r))) => Some (JBool true, r)
      | String "f" (String "a" (String "l" (String "s" (String "e" r)))) =>
          Some (JBool false, r)
      | String "n" (String "u" (String "l" (String "l" r))) => Some (JNull, r)
      | String c r =>
          if Ascii.eqb c dquote then
            match parse_string r with
            | Some (t, rest) => Some (JStr t, rest)
            | None => None
            end
          else
            match parse_number (String c r) with
            | Some (lx, rest) => Some (JNum lx, rest)
            | None => None
            end
      | EmptyString => None
      end
  end
with parse_members (fuel : nat) (s : string) (acc : list (list Z * json))
  : option (json * string) :=
  match fuel with
  | O => None
  | S f =>
      match skip_ws s with
      | String c r =>
          if Ascii.eqb c dquote then
            match parse_string r with
            | Some (k, r1) =>
                match skip_ws r1 with
                | String ":" r2 =>
                    match parse_value f r2 with
                    | Some (v, r3) =>
                        match skip_ws r3 with
                        | String "," r4 => parse_members f r4 ((k, v) :: acc)
                        | String "}" r4 => Some (JObj (rev ((k, v) :: acc)), r4)
                        | _ => None
                        end
                    | None => None
                    end
                | _ => None
                end
            | None => None
            end
          else None
      | EmptyString => None
      end
  end
with parse_elems (fuel : nat) (s : string) (acc : list json)
  : option (json * string) :=
  match fuel with
  | O => None
  | S f =>
      match parse_value f s with
      | Some (v, r1) =>
          match skip_ws r1 with
          | String "," r2 => parse_elems f r2 (v :: acc)
          | String "]" r2 => Some (JArr (rev (v :: acc)), r2)
          | _ => None
          end
      | None => None
      end
  end.

(** [JSON.parse]: [inr v] on success, [inl msg] for the SyntaxError it
    throws (the engine's wording of the message is not modelled). *)
Definition parse (s : string) : string + json :=
  match parse_value (S (String.length s)) s with
  | Some (v, rest) =>
      match skip_ws rest with
      | EmptyString => inr v
      | _ => inl "Unexpected non-whitespace character after JSON"
      end
  | None => inl "Unexpected token in JSON"
  end.

(** Helpers to write JSON text and values in Rocq: in [dq s] every ['] of
    [s] stands for a double quote. *)
Fixpoint dq (s : string) : string :=
  match s with
  | String "'" r => String dquote (dq r)
  | String c r => String c (dq r)
  | EmptyString => EmptyString
  end.

Fixpoint units (s : string) : list Z :=
  match s with
  | String c r => code c :: units r
  | EmptyString => []
  end.

Definition lf : string := String (ascii_of_nat 10) EmptyString.

End Json.

(* ------------------------------------------------------------------ *)
(** ** Effects: a state and exception monad

    The world is the set of files on disk, the [req.file] slot of the
    request object (written by the upload middleware, read by the
    handler's [catch] branch) and a log of the observable effects. *)

Module Effects.

Inductive event : Type :=
| EvWrite (path : string)        (** the upload is spooled to disk *)
| EvUnlink (path : string)       (** [fs.unlinkSync] / multer's removal *)
| EvNewClient                    (** [new GeminiService()] *)
| EvReadFile (path : string)     (** [fs.readFileSync] *)
| EvModelCall (mime : string).   (** [this.model.generateContent(...)] *)

Record world : Type := mkWorld {
  fs : list string;
  req_file : option string;
  log : list event
}.

(** A thrown JavaScript error, by its message. *)
Inductive result (A : Type) : Type :=
| Ok (a : A)
| Throw (msg : string).
Arguments Ok {A} a.
Arguments Throw {A} msg.

Definition M (A : Type) : Type := world -> result A * world.

Definition ret {A} (a : A) : M A := fun w => (Ok a, w).
Definition throw {A} (msg : string) : M A := fun w => (Throw msg, w).
Definition bind {A B} (m : M A) (k : A -> M B) : M B :=
  fun w => match m w with
           | (Ok a, w') => k a w'
           | (Throw e, w') => (Throw e, w')
           end.
(** [try { m } catch (e) { h(e) }] *)
Definition try_catch {A} (m : M A) (h : string -> M A) : M A :=
  fun w => match m w with
           | (Ok a, w') => (Ok a, w')
           | (Throw e, w') => h e w'
           end.

Notation "x <- m ;; k" := (bind m (fun x => k))
  (at level 61, m at next level, right associativity).
Notation "m ;;; k" := (bind m (fun _ => k))
  (at level 61, right associativity).

Definition emit (e : event) : M unit :=
  fun w => (Ok tt, mkWorld (fs w) (req_file w) (log w ++ [e])).

Definition get_req_file : M (option string) := fun w => (Ok (req_file w), w).
Definition set_req_file (p : option string) : M unit :=
  fun w => (Ok tt, mkWorld (fs w) p (log w)).

Definition existsSync (p : string) : M bool :=
  fun w => (Ok (existsb (String.eqb p) (fs w)), w).

Definition remove_path (p : string) (l : list string) : list string :=
  filter (fun q => negb (String.eqb p q)) l.

(** Writing a file at [p] (creating or overwriting it). *)
Definition write_file (p : string) : M unit :=
  fun w => (Ok tt, mkWorld (p :: remove_path p (fs w))
                          (req_file w) (log w ++ [EvWrite p])).

(** [fs.unlinkSync(p)]: throws ENOENT when [p] does not exist. *)
Definition unlinkSync (p : string) : M unit :=
  fun w => if existsb (String.eqb p) (fs w)
           then (Ok tt, mkWorld (remove_path p (fs w)) (req_file w) (log w ++ [EvUnlink p]))
           else (Throw ("ENOENT: no such file or directory, unlink '" ++ p ++ "'"), w).

(** [fs.readFileSync(p)]: the bytes themselves are not modelled. *)
Definition readFileSync (p : string) : M unit :=
  fun w => if existsb (String.eqb p) (fs w)
           then (Ok tt, mkWorld (fs w) (req_file w) (log w ++ [EvReadFile p]))
           else (Throw ("ENOENT: no such file or directory, open '" ++ p ++ "'"), w).

End Effects.

(* ------------------------------------------------------------------ *)
(** ** [services/geminiService.js] *)

Module Gemini.
Import JsString Json Effects.

(** What the external model's [generateContent] call produces: the text of
    its response, or the error it throws (network, quota, credential). *)
Inductive reply : Type :=
| ReplyText (text : string)
| ReplyError (msg : string).

(** [let mimeType = 'image/jpeg'; if (imagePath.toLowerCase().endsWith('.png')) ...] *)
Definition mimeType_of (imagePath : string) : string :=
  if endsWith (toLowerCase imagePath) ".png" then "image/png"
  else if endsWith (toLowerCase imagePath) ".gif" then "image/gif"
  else "image/jpeg".

(** [text.replace(/```json|```/g, '').trim()] *)
Definition cleanedText (text : string) : string := trim (replace_fences text).

Definition generateContent (r : reply) (mime : string) : M string :=
  emit (EvModelCall mime) ;;;
  match r with
  | ReplyText t => ret t
  | ReplyError e => throw e
  end.

Definition analysis_error_prefix : string := "Failed to analyze image with Gemini API: ".

(** [constructor()]: reads the configuration and builds the SDK client;
    it logs but never throws. *)
Definition new_GeminiService : M unit := emit EvNewClient.

(** [async analyzeImage(imagePath)] *)
Definition analyzeImage (r : reply) (imagePath : string) : M json :=
  try_catch
    (readFileSync imagePath ;;;
     let mimeType := mimeType_of imagePath in
     text <- generateContent r mimeType ;;
     match parse (cleanedText text) with
     | inr v => ret v
     | inl e => throw e
     end)
    (fun msg => throw (analysis_error_prefix ++ msg)).

End Gemini.

(* ------------------------------------------------------------------ *)
(** ** Node's [path.join] (POSIX)

    multer's disk storage stores a file at [path.join(destination, filename)].
    [path] is Node's module, not part of this repository; [normalize]
    follows [path.posix.normalize]: the path is cut at every ['/']; empty
    and ['.'] segments are dropped; ['..'] removes the previous segment,
    and above the start of a relative path it is kept (dropped at the
    root of an absolute one); the result keeps a leading and a trailing
    ['/'], and the empty result is ['.'] (['./'] with a trailing slash,
    ['/'] for an absolute path). *)

Module Path.

Fixpoint split_slash (s : string) : list string :=
  match s with
  | EmptyString => [EmptyString]
  | String c r =>
      let l := split_slash r in
      if Ascii.eqb c "/" then EmptyString :: l
      else match l with
           | h :: t => String c h :: t
           | [] => [String c EmptyString]
           end
  end.

(** One segment of [normalizeString]; the stack holds the kept segments,
    last one first. *)
Definition resolve_segment (allowAboveRoot : bool) (stack : list string) (seg : string)
  : list string :=
  if String.eqb seg "" || String.eqb seg "." then stack
  else if String.eqb seg ".." then
    match stack with
    | top :: rest =>
        if String.eqb top ".." then (if allowAboveRoot then ".." :: stack else stack)
        else rest
    | [] => if allowAboveRoot then [".."] else []
    end
  else seg :: stack.

Fixpoint join_slash (l : list string) : string :=
  match l with
  | [] => EmptyString
  | [s] => s
  | s :: t => s ++ "/" ++ join_slash t
  end.

Definition resolve (allowAboveRoot : bool) (path : string) : list string :=
  fold_left (resolve_segment allowAboveRoot) (split_slash path) [].

Definition normalizeString (allowAboveRoot : bool) (path : string) : string :=
  join_slash (rev (resolve allowAboveRoot path)).

Definition first_is_slash (s : string) : bool :=
  match s with
  | String c _ => Ascii.eqb c "/"
  | EmptyString => false
  end.

Fixpoint last_is_slash (s : string) : bool :=
  match s with
  | EmptyString => false
  | String c EmptyString => Ascii.eqb c "/"
  | String _ r => last_is_slash r
  end.

Definition normalize (path : string) : string :=
  if String.eqb path "" then "."
  else
    let isAbsolute := first_is_slash path in
    let trailingSeparator := last_is_slash path in
    let p := normalizeString (negb isAbsolute) path in
    if String.eqb p "" then
      (if isAbsolute then "/" else if trailingSeparator then "./" else ".")
    else (if isAbsolute then "/" else "") ++ p ++ (if trailingSeparator then "/" else "").

(** [path.join(a, b)]: the non-empty arguments joined by ['/'], normalized. *)
Definition join (a b : string) : string :=
  if String.eqb a "" then (if String.eqb b "" then "." else normalize b)
  else if String.eqb b "" then normalize a
  else normalize (a ++ "/" ++ b).

End Path.

(* ------------------------------------------------------------------ *)
(** ** The upload middleware [upload.single('image')]

    multer is a library, not part of this repository; [single] follows its
    documented behaviour: a file part without a file name is skipped; a
    file under another field name fails with "Unexpected field"; the
    [fileFilter] of the options is consulted before anything is written;
    the accepted file is streamed to [path.join(destination, filename)],
    and when it reaches [limits.fileSize] bytes busboy reports the limit
    (its check is [fileSize === fileSizeLimit], so a file of exactly the
    limit is refused too): the partial file is removed and the middleware
    fails with "File too large".  [req.file] is set only when the file was
    stored completely.  [originalname] is the file name busboy reports: its
    base name, with no ['/'] in it. *)

Module Multer.
Import Json Effects.

Record file_part : Type := mkPart {
  fieldname : string;
  originalname : string;
  mimetype : string;
  size : Z
}.

Record options : Type := mkOptions {
  destination : string;
  fileSize_limit : Z;
  fileFilter : file_part -> option string   (** [Some msg]: [cb(new Error(msg))] *)
}.

Definition string_of_Z (n : Z) : string :=
  DecimalString.NilZero.string_of_int (Z.to_int n).

(** [filename: (req, file, cb) => cb(null, `${Date.now()}-${file.originalname}`)] *)
Definition filename (now : Z) (f : file_part) : string :=
  string_of_Z now ++ "-" ++ originalname f.

(** [path.join(destination, filename)] in multer's disk storage. *)
Definition disk_path (o : options) (now : Z) (f : file_part) : string :=
  Path.join (destination o) (filename now f).

Definition single (o : options) (field : string) (now : Z) (part : option file_part)
  : M unit :=
  match part with
  | None => ret tt
  | Some f =>
      if String.eqb (originalname f) EmptyString then ret tt
      else if negb (String.eqb (fieldname f) field) then throw "Unexpected field"
      else match fileFilter o f with
           | Some msg => throw msg
           | None =>
               let p := disk_path o now f in
               write_file p ;;;
               if fileSize_limit o <=? size f
               then unlinkSync p ;;; throw "File too large"
               else set_req_file (Some p)
           end
  end.

(** [const allowedTypes = ['image/jpeg', 'image/png', 'image/jpg', 'image/gif'];] *)
Definition allowedTypes : list string := ["image/jpeg"; "image/png"; "image/jpg"; "image/gif"].

Definition invalid_type_message : string :=
  "Invalid file type. Only JPEG, PNG, JPG, and GIF are allowed.".

Definition fileFilter_images (f : file_part) : option string :=
  if existsb (String.eqb (mimetype f)) allowedTypes then None
  else Some invalid_type_message.

(** [limits: { fileSize: 10 * 1024 * 1024 }] *)
Definition max_file_size : Z := 10 * 1024 * 1024.

(** The options of [api/analyze-sheet.js] (destination ['/tmp']) and of the
    Express server (destination ['./tmp']). *)
Definition upload_serverless : options := mkOptions "/tmp" max_file_size fileFilter_images.
Definition upload_express : options := mkOptions "./tmp" max_file_size fileFilter_images.

End Multer.

(* ------------------------------------------------------------------ *)
(** ** The request handlers *)

Module Handler.
Import JsString Json Effects Gemini Multer.

Record request : Type := mkRequest {
  method : string;
  image_part : option file_part   (** the file part of the multipart body, if any *)
}.

Inductive resp_body : Type :=
| BodyEmpty                      (** [res.status(200).end()] *)
| BodyJson (j : json)            (** [res.status(..).json(j)] *)
| BodyErrorPage (msg : string).  (** Express's default error handler *)

Record response : Type := mkResponse {
  status : Z;
  body : resp_body
}.

Definition key (s : string) : list Z := units s.

Definition failure (msg : string) : json :=
  JObj [(key "success", JBool false); (key "message", JStr (units msg))].

Definition success (data : json) : json :=
  JObj [(key "success", JBool true); (key "data", data)].

Definition no_file_message : string := "No image file uploaded".
Definition generic_failure_message : string := "Failed to analyze the image. Please try again.".

(** The [try] block shared by both handlers, after the upload middleware:
    [if (!req.file) ...; new GeminiService(); await analyzeImage(req.file.path);
    fs.unlinkSync(req.file.path); return res.status(200).json(...)]. *)
Definition analyze_body (r : reply) : M response :=
  f <- get_req_file ;;
  match f with
  | None => ret (mkResponse 400 (BodyJson (failure no_file_message)))
  | Some p =>
      new_GeminiService ;;;
      analysisResult <- analyzeImage r p ;;
      unlinkSync p ;;;
      ret (mkResponse 200 (BodyJson (success analysisResult)))
  end.

(** [if (req.file && fs.existsSync(req.file.path)) fs.unlinkSync(req.file.path);] *)
Definition cleanup : M unit :=
  f <- get_req_file ;;
  match f with
  | None => ret tt
  | Some p => b <- existsSync p ;; if b then unlinkSync p else ret tt
  end.

(** [api/analyze-sheet.js]: [module.exports = async (req, res) => ...].
    [node_env] is the process's [NODE_ENV]; this handler never reads it. *)
Definition analyze_sheet (node_env : option string) (now : Z) (r : reply)
  (req : request) : M response :=
  if String.eqb (method req) "OPTIONS" then ret (mkResponse 200 BodyEmpty)
  else if negb (String.eqb (method req) "POST") then
    ret (mkResponse 405 (BodyJson (failure "Method not allowed")))
  else
    try_catch
      (single upload_serverless "image" now (image_part req) ;;;
       analyze_body r)
      (fun _ =>
         cleanup ;;;
         ret (mkResponse 500 (BodyJson (failure generic_failure_message)))).

(** [process.env.NODE_ENV === 'development'] *)
Definition is_development (node_env : option string) : bool :=
  match node_env with
  | Some v => String.eqb v "development"
  | None => false
  end.

(** [process.env.NODE_ENV === 'production'], as Express's default error
    handler reads it ([app.get('env')], which is [NODE_ENV] or
    ['development']). *)
Definition is_production (node_env : option string) : bool :=
  match node_env with
  | Some v => String.eqb v "production"
  | None => false
  end.

(** The Express route [app.post('/api/analyze-sheet', upload.single('image'), ...)].
    The middleware runs first; an error it reports goes to Express's default
    error handler: status 500 and an error page, not the handler's envelope.
    In production the page says only "Internal Server Error"; otherwise it
    shows the error's stack, whose first line carries the error's message,
    modelled here by the message. In the [catch] branch, [error: undefined]
    is dropped by [res.json]. *)
Definition express_analyze_sheet (node_env : option string) (now : Z) (r : reply)
  (req : request) : M response :=
  fun w =>
    match single upload_express "image" now (image_part req) w with
    | (Throw e, w') =>
        (Ok (mkResponse 500
               (BodyErrorPage (if is_production node_env then "Internal Server Error" else e))), w')
    | (Ok _, w') =>
        try_catch (analyze_body r)
          (fun msg =>
             cleanup ;;;
             let env :=
               JObj ([(key "success", JBool false);
                      (key "message", JStr (units generic_failure_message))] ++
                     (if is_development node_env
                      then [(key "error", JStr (units msg))] else [])) in
             ret (mkResponse 500 (BodyJson env))) w'
    end.

(** Running a handler from a world. *)
Definition run {A} (m : M A) (w : world) : result A * world := m w.

Definition init (fs0 : list string) : world := mkWorld fs0 None [].

(** The key of a JSON object member, if present. *)
Definition member (k : string) (j : json) : option json :=
  match j with
  | JObj m =>
      match find (fun kv => if list_eq_dec Z.eq_dec (fst kv) (key k) then true else false) m with
      | Some (_, v) => Some v
      | None => None
      end
  | _ => None
  end.

End Handler.

(* ------------------------------------------------------------------ *)
(** ** Console output and JavaScript truthiness *)

Module Console.

(** What a script prints or sends.  [console.log(a, b)] prints its
    arguments joined by a space; [console.error(label, error)] prints the
    inspected error object, modelled by the error's message. *)
Inductive io_event : Type :=
| LogLine (s : string)
| ErrorLine (s : string)
| ErrorObject (label : string) (message : string)
| FetchCall (url : string).

(** [!v] for a string-valued environment variable: unset and [""] are falsy. *)
Definition falsy (v : option string) : bool :=
  match v with
  | None => true
  | Some s => String.eqb s EmptyString
  end.

(** [v || d] for a string-valued environment variable. *)
Definition or_default (v : option string) (d : string) : string :=
  match v with
  | Some s => if String.eqb s EmptyString then d else s
  | None => d
  end.

(** [c.repeat(n)] for a one-character string [c]. *)
Fixpoint repeat_char (c : ascii) (n : nat) : string :=
  match n with
  | O => EmptyString
  | S k => String c (repeat_char c k)
  end.

Definition is_console (e : io_event) : bool :=
  match e with
  | FetchCall _ => false
  | _ => true
  end.

End Console.

(* ------------------------------------------------------------------ *)
(** ** The [GeminiService] constructor *)

Module GeminiConfig.
Import Console.

Definition default_model_name : string := "gemini-2.5-flash".

Record service : Type := mkService {
  apiKey : option string;
  modelName : string
}.

(** [constructor()]: [GEMINI_API_KEY] and [GEMINI_MODEL] are read from the
    environment; the SDK client is built with them and never throws. *)
Definition constructor (env_key env_model : option string) : list io_event * service :=
  let key_line :=
    match env_key with
    | Some k =>
        if falsy env_key then ErrorLine "GeminiService: API Key is empty!"
        else LogLine ("GeminiService: API Key loaded. Length: " ++
                      Multer.string_of_Z (Z.of_nat (String.length k)) ++
                      ", First 4 chars: " ++ substring 0 4 k)
    | None => ErrorLine "GeminiService: API Key is empty!"
    end in
  let modelName := or_default env_model default_model_name in
  ([key_line; LogLine ("GeminiService: Using model: " ++ modelName)],
   mkService env_key modelName).

End GeminiConfig.

(* ------------------------------------------------------------------ *)
(** ** [listModels()] (the model listing script) *)

Module ListModels.
Import Json Console.

Record model_info : Type := mkModel {
  name : string;
  displayName : string;
  description : string;
  supportedGenerationMethods : option (list string)   (** [None]: undefined *)
}.

(** What [await response.json()] and [data.models] give. *)
Inductive models_body : Type :=
| ModelsArray (models : list model_info)
| ModelsNotIterable (message : string)   (** [data.models] is not an array *)
| BodyNotJson (message : string).        (** [response.json()] rejects *)

(** What [await fetch(url)] gives. *)
Inductive fetch_outcome : Type :=
| FetchRejects (message : string)
| FetchResponse (ok : bool) (status : Z) (body : models_body).

Definition models_url (k : string) : string :=
  "https://generativelanguage.googleapis.com/v1beta/models?key=" ++ k.

(** The UTF-8 bytes of the check mark U+2705. *)
Definition check_mark : string :=
  String (ascii_of_nat 226) (String (ascii_of_nat 156) (String (ascii_of_nat 133) EmptyString)).

Definition model_line (n : string) : string := lf ++ check_mark ++ " Model: " ++ n.

Definition supports_generateContent (m : model_info) : bool :=
  match supportedGenerationMethods m with
  | Some ms => existsb (String.eqb "generateContent") ms
  | None => false
  end.

(** The body of [for (const model of data.models) { if (...) { ... } }]. *)
Fixpoint print_models (l : list model_info) : list io_event :=
  match l with
  | [] => []
  | m :: r =>
      match supportedGenerationMethods m with
      | Some ms =>
          if existsb (String.eqb "generateContent") ms then
            [LogLine (model_line (name m));
             LogLine ("   Display Name: " ++ displayName m);
             LogLine ("   Description: " ++ description m);
             LogLine ("   Supported Methods: " ++ String.concat ", " ms);
             LogLine (repeat_char "-" 80)]
          else []
      | None => []
      end ++ print_models r
  end.

Definition catch_block (msg : string) : list io_event :=
  [ErrorLine ("Error listing models: " ++ msg); ErrorObject "Full error:" msg].

Definition listModels (env_key : option string) (resp : fetch_outcome) : list io_event :=
  match env_key with
  | Some k =>
      if falsy env_key then [ErrorLine "Error: GEMINI_API_KEY not found in .env file"]
      else
        [LogLine ("API Key loaded: " ++ substring 0 10 k ++ "...");
         LogLine (lf ++ "Fetching available models..." ++ lf);
         FetchCall (models_url k)] ++
        match resp with
        | FetchRejects msg => catch_block msg
        | FetchResponse ok status body =>
            if negb ok then catch_block ("HTTP error! status: " ++ Multer.string_of_Z status)
            else
              match body with
              | BodyNotJson msg => catch_block msg
              | ModelsArray models =>
                  [LogLine ("Available models that support generateContent:" ++ lf);
                   LogLine (repeat_char "=" 80)] ++ print_models models
              | ModelsNotIterable msg =>
                  [LogLine ("Available models that support generateContent:" ++ lf);
                   LogLine (repeat_char "=" 80)] ++ catch_block msg
              end
        end
  | None => [ErrorLine "Error: GEMINI_API_KEY not found in .env file"]
  end.

End ListModels.

(* ------------------------------------------------------------------ *)
(** ** [getLocalIP()] of the Express server *)

Module Server.

Record iface : Type := mkIface {
  family : string;
  internal : bool;
  address : string
}.

Definition external_ipv4 (i : iface) : bool :=
  String.eqb (family i) "IPv4" && negb (internal i).

(** [for (const iface of interfaces[name]) { if (...) return iface.address; }] *)
Fixpoint scan_ifaces (l : list iface) : option string :=
  match l with
  | [] => None
  | i :: r => if external_ipv4 i then Some (address i) else scan_ifaces r
  end.

(** [for (const name of Object.keys(interfaces)) ...]: the interface names
    in key order, each with its address entries. *)
Fixpoint scan_names (interfaces : list (string * list iface)) : option string :=
  match interfaces with
  | [] => None
  | (_, ifs) :: r =>
      match scan_ifaces ifs with
      | Some a => Some a
      | None => scan_names r
      end
  end.

Definition getLocalIP (interfaces : list (string * list iface)) : string :=
  match scan_names interfaces with
  | Some a => a
  | None => "localhost"
  end.

End Server.

(* ------------------------------------------------------------------ *)
(** ** Lemmas about the effects *)

Module EffectFacts.
Import Effects.

Lemma remove_path_not_in (p : string) (l : list string) :
  ~ In p (remove_path p l).
Proof.
  unfold remove_path. rewrite filter_In. rewrite String.eqb_refl. simpl.
  intros [_ H]. discriminate.
Qed.

Lemma existsb_eqb_In (p : string) (l : list string) :
  existsb (String.eqb p) l = true <-> In p l.
Proof.
  rewrite existsb_exists. split.
  - intros [x [Hx He]]. apply String.eqb_eq in He. subst. exact Hx.
  - intros H. exists p. split; [exact H | apply String.eqb_refl].
Qed.

Lemma existsb_self (p : string) (l : list string) :
  existsb (String.eqb p) (p :: l) = true.
Proof. simpl. rewrite String.eqb_refl. reflexivity. Qed.

Lemma existsb_removed (p : string) (l : list string) :
  existsb (String.eqb p) (remove_path p l) = false.
Proof.
  apply Bool.not_true_iff_false. rewrite existsb_eqb_In. apply remove_path_not_in.
Qed.

Lemma post_not_options : String.eqb "POST" "OPTIONS" = false.
Proof. reflexivity. Qed.

Lemma post_is_post : String.eqb "POST" "POST" = true.
Proof. reflexivity. Qed.

Lemma dev_is_dev : Handler.is_development (Some "development") = true.
Proof. reflexivity. Qed.

End EffectFacts.

(* ------------------------------------------------------------------ *)
(** ** Lemmas about the cleanup of the model's text *)

Module FenceFacts.
Import JsString Json.

Definition nl : ascii := ascii_of_nat 10.

Lemma is_tick_nl : is_tick nl = false.
Proof. reflexivity. Qed.

Lemma is_json_nl2 (c4 c6 c7 : ascii) : is_json c4 nl c6 c7 = false.
Proof. unfold is_json. destruct (Ascii.eqb c4 "j"); reflexivity. Qed.

Lemma is_json_nl3 (c4 c5 c7 : ascii) : is_json c4 c5 nl c7 = false.
Proof.
  unfold is_json. destruct (Ascii.eqb c4 "j"), (Ascii.eqb c5 "s"); reflexivity.
Qed.

Lemma is_json_nl4 (c4 c5 c6 : ascii) : is_json c4 c5 c6 nl = false.
Proof.
  unfold is_json.
  destruct (Ascii.eqb c4 "j"), (Ascii.eqb c5 "s"), (Ascii.eqb c6 "o"); reflexivity.
Qed.

(** A character that is not a backtick is kept, and the scan goes on. *)
Lemma replace_fences_keep (c : ascii) (r : string) :
  is_tick c = false -> replace_fences (String c r) = String c (replace_fences r).
Proof.
  intros H. destruct r as [|c2 [|c3 r3]]; simpl; try reflexivity.
  rewrite H. reflexivity.
Qed.

Lemma replace_fences_ticks (c1 c2 c3 : ascii) (r3 : string) :
  is_tick c1 && is_tick c2 && is_tick c3 = true ->
  replace_fences (String c1 (String c2 (String c3 r3))) =
  match r3 with
  | String c4 (String c5 (String c6 (String c7 r7))) =>
      if is_json c4 c5 c6 c7 then replace_fences r7 else replace_fences r3
  | _ => replace_fences r3
  end.
Proof. intros H. simpl. rewrite H. reflexivity. Qed.

Lemma replace_fences_no_ticks (c1 c2 c3 : ascii) (r3 : string) :
  is_tick c1 && is_tick c2 && is_tick c3 = false ->
  replace_fences (String c1 (String c2 (String c3 r3))) =
  String c1 (replace_fences (String c2 (String c3 r3))).
Proof. intros H. simpl. rewrite H. reflexivity. Qed.

Lemma replace_fences_nl (b : string) :
  replace_fences (String nl b) = String nl (replace_fences b).
Proof. apply replace_fences_keep, is_tick_nl. Qed.

Lemma replace_fences_lf_n (n : nat) : forall a b, (String.length a < n)%nat ->
  replace_fences (a ++ String nl b) = replace_fences a ++ String nl (replace_fences b).
Proof.
  induction n as [|n IH]; intros a b Hn; [simpl in Hn; lia|].
  destruct a as [|c1 [|c2 [|c3 a3]]].
  - apply replace_fences_nl.
  - change (replace_fences (String c1 (String nl b)) = String c1 (String nl (replace_fences b))).
    destruct b as [|c3 r3].
    + reflexivity.
    + rewrite replace_fences_no_ticks by (rewrite is_tick_nl, andb_false_r; reflexivity).
      rewrite replace_fences_nl. reflexivity.
  - change (replace_fences (String c1 (String c2 (String nl b))) =
            String c1 (String c2 (String nl (replace_fences b)))).
    rewrite replace_fences_no_ticks by (rewrite is_tick_nl, andb_false_r; reflexivity).
    f_equal. apply (IH (String c2 EmptyString) b); simpl in *; lia.
  - change (replace_fences (String c1 (String c2 (String c3 (a3 ++ String nl b)))) =
            replace_fences (String c1 (String c2 (String c3 a3))) ++ String nl (replace_fences b)).
    destruct (is_tick c1 && is_tick c2 && is_tick c3) eqn:T.
    + rewrite !replace_fences_ticks by exact T.
      destruct a3 as [|c4 [|c5 [|c6 [|c7 a7]]]].
      * destruct b as [|x [|y [|z r]]]; apply replace_fences_nl.
      * destruct b as [|x [|y r]]; cbn [append]; rewrite ?is_json_nl2;
          apply (IH (String c4 EmptyString)); simpl in *; lia.
      * destruct b as [|x r]; cbn [append]; rewrite ?is_json_nl3;
          apply (IH (String c4 (String c5 EmptyString))); simpl in *; lia.
      * cbn [append]; rewrite ?is_json_nl4;
          apply (IH (String c4 (String c5 (String c6 EmptyString)))); simpl in *; lia.
      * cbn [append]. destruct (is_json c4 c5 c6 c7).
        -- apply IH; simpl in *; lia.
        -- apply (IH (String c4 (String c5 (String c6 (String c7 a7))))); simpl in *; lia.
    + rewrite !replace_fences_no_ticks by exact T. 
      simpl. f_equal. apply (IH (String c2 (String c3 a3))); simpl in *; lia.
Qed.

(** The scan restarts at a newline: a newline cannot be part of a fence. *)
Lemma replace_fences_lf (a b : string) :
  replace_fences (a ++ String nl b) = replace_fences a ++ String nl (replace_fences b).
Proof. apply (replace_fences_lf_n (S (String.length a))). lia. Qed.

Lemma append_assoc_s (x y z : string) : (x ++ y) ++ z = x ++ (y ++ z).
Proof. induction x as [|c x IH]; simpl; [reflexivity | rewrite IH; reflexivity]. Qed.

Lemma append_nil_s (x : string) : x ++ EmptyString = x.
Proof. induction x as [|c x IH]; simpl; [reflexivity | rewrite IH; reflexivity]. Qed.

Lemma rev_string_app (x y : string) : rev_string (x ++ y) = rev_string y ++ rev_string x.
Proof.
  induction x as [|c x IH]; simpl.
  - rewrite append_nil_s. reflexivity.
  - rewrite IH, append_assoc_s. reflexivity.
Qed.

Lemma trim_start_app_nl (y : string) :
  trim_start (y ++ String nl EmptyString) =
  match trim_start y with
  | EmptyString => EmptyString
  | y' => y' ++ String nl EmptyString
  end.
Proof.
  induction y as [|c y IH]; simpl; [reflexivity|].
  destruct (is_trim_space c); [exact IH | reflexivity].
Qed.

Lemma trim_end_app_nl (z : string) :
  trim_end (z ++ String nl EmptyString) = trim_end z.
Proof. unfold trim_end. rewrite rev_string_app. reflexivity. Qed.

(** Surrounding newlines are trimmed away. *)
Lemma trim_nl_around (y : string) :
  trim (String nl (y ++ String nl EmptyString)) = trim y.
Proof.
  unfold trim. change (trim_start (String nl ?s)) with (trim_start s).
  rewrite trim_start_app_nl. destruct (trim_start y) as [|c r] eqn:E.
  - reflexivity.
  - apply trim_end_app_nl.
Qed.

(** A response wrapped in a json-tagged fence cleans to what the bare
    response cleans to. *)
Lemma cleanedText_fenced (t : string) :
  Gemini.cleanedText ("```json" ++ lf ++ t ++ lf ++ "```") = Gemini.cleanedText t.
Proof.
  unfold Gemini.cleanedText.
  change (replace_fences ("```json" ++ lf ++ t ++ lf ++ "```"))
    with (replace_fences (String nl (t ++ String nl "```"))).
  rewrite replace_fences_nl, replace_fences_lf. apply trim_nl_around.
Qed.

Fixpoint no_tick (s : string) : bool :=
  match s with
  | EmptyString => true
  | String c r => negb (is_tick c) && no_tick r
  end.

Lemma replace_fences_no_tick_prefix (a b : string) :
  no_tick a = true -> replace_fences (a ++ b) = a ++ replace_fences b.
Proof.
  induction a as [|c a IH]; intros H; [reflexivity|].
  change (String c a ++ b) with (String c (a ++ b)). simpl in H.
  apply andb_true_iff in H as [H1 H2]. apply negb_true_iff in H1.
  rewrite replace_fences_keep by exact H1. rewrite IH by exact H2. reflexivity.
Qed.

Lemma prefix_json (c4 c5 c6 c7 : ascii) (r : string) :
  prefix "json" (String c4 (String c5 (String c6 (String c7 r)))) = is_json c4 c5 c6 c7.
Proof.
  unfold is_json. cbv beta iota zeta delta [prefix].
  destruct (ascii_dec "j" c4) as [<-|H4]; [|destruct (Ascii.eqb_spec c4 "j"); [congruence | reflexivity]].
  destruct (ascii_dec "s" c5) as [<-|H5]; [|destruct (Ascii.eqb_spec c5 "s"); [congruence | reflexivity]].
  destruct (ascii_dec "o" c6) as [<-|H6]; [|destruct (Ascii.eqb_spec c6 "o"); [congruence | reflexivity]].
  destruct (ascii_dec "n" c7) as [<-|H7]; [destruct r; reflexivity|].
  destruct (Ascii.eqb_spec c7 "n"); [congruence | reflexivity].
Qed.

Lemma replace_fences_tick3 (b : string) :
  prefix "json" b = false -> replace_fences ("```" ++ b) = replace_fences b.
Proof.
  intros H. change ("```" ++ b) with (String "`" (String "`" (String "`" b))).
  rewrite replace_fences_ticks by reflexivity.
  destruct b as [|c4 [|c5 [|c6 [|c7 r]]]]; try reflexivity.
  rewrite prefix_json in H. rewrite H. reflexivity.
Qed.

Lemma toLowerCase_app (x y : string) : toLowerCase (x ++ y) = toLowerCase x ++ toLowerCase y.
Proof. induction x as [|c x IH]; simpl; [reflexivity | rewrite IH; reflexivity]. Qed.

Lemma toLowerCase_length (x : string) : String.length (toLowerCase x) = String.length x.
Proof. induction x as [|c x IH]; simpl; [reflexivity | rewrite IH; reflexivity]. Qed.

Lemma substring_app_r (x y : string) (n m : nat) :
  substring (String.length x + n) m (x ++ y) = substring n m y.
Proof. induction x as [|c x IH]; simpl; [reflexivity | exact IH]. Qed.

Lemma length_app_s (x y : string) :
  String.length (x ++ y) = (String.length x + String.length y)%nat.
Proof. induction x as [|c x IH]; simpl; [reflexivity | rewrite IH; reflexivity]. Qed.

(** [endsWith] only looks at the last [length suffix] characters. *)
Lemma endsWith_app (x y z : string) :
  (String.length z <= String.length y)%nat -> endsWith (x ++ y) z = endsWith y z.
Proof.
  intros H. unfold endsWith. rewrite length_app_s.
  replace (String.length x + String.length y - String.length z)%nat
    with (String.length x + (String.length y - String.length z))%nat by lia.
  rewrite substring_app_r.
  replace (String.length z <=? String.length x + String.length y)%nat with true
    by (symmetry; apply Nat.leb_le; lia).
  replace (String.length z <=? String.length y)%nat with true
    by (symmetry; apply Nat.leb_le; lia).
  reflexivity.
Qed.

End FenceFacts.

(* ------------------------------------------------------------------ *)
(** ** Claims *)

Module Claims.
Import JsString Json Effects Gemini Multer Handler EffectFacts FenceFacts.

(** Every file the request wrote has been removed from the disk. *)
Definition no_orphan (w : world) : Prop :=
  forall p, In (EvWrite p) (log w) -> ~ In p (fs w).

(** Symbolic execution of the handlers: unfold the monad, then split on
    every branch the code takes. *)
Ltac step :=
  cbv beta iota zeta delta [analyze_body cleanup analyzeImage generateContent
    new_GeminiService single try_catch bind ret throw emit get_req_file
    set_req_file existsSync write_file unlinkSync readFileSync fs req_file log
    fst snd run init analyze_sheet express_analyze_sheet method image_part
    upload_serverless upload_express fileFilter fileSize_limit negb];
  rewrite ?existsb_self, ?existsb_removed, ?post_not_options, ?post_is_post, ?dev_is_dev.

Ltac split_one :=
          match goal with
          | |- context [match ?c with _ => _ end] =>
              lazymatch c with
              | context [match _ with _ => _ end] => fail
              | _ => let E := fresh "E" in destruct c eqn:E
              end
          end.

Ltac exec := repeat (first [progress step | split_one]).

(** An upload the middleware stores completely. *)
Definition accepted (f : file_part) : bool :=
  negb (String.eqb (originalname f) EmptyString) && String.eqb (fieldname f) "image" &&
  existsb (String.eqb (mimetype f)) allowedTypes && (size f <? max_file_size).

(** The underlying cause of a failed analysis: the error the model call
    throws, or the error [JSON.parse] throws on the cleaned text. *)
Definition reply_cause (r : reply) : option string :=
  match r with
  | ReplyError e => Some e
  | ReplyText t =>
      match parse (cleanedText t) with
      | inl e => Some e
      | inr _ => None
      end
  end.

Lemma accepted_spec (f : file_part) :
  accepted f = true ->
  String.eqb (originalname f) EmptyString = false /\
  String.eqb (fieldname f) "image" = true /\
  fileFilter_images f = None /\
  (max_file_size <=? size f) = false.
Proof.
  unfold accepted, fileFilter_images.
  intros H. repeat rewrite andb_true_iff in H.
  destruct H as [[[H1 H2] H3] H4].
  rewrite negb_true_iff in H1. rewrite H1, H2, H3. simpl.
  repeat split. apply Z.leb_gt. apply Z.ltb_lt in H4. exact H4.
Qed.

Ltac orphan_tac :=
  unfold no_orphan; intros q Hq; simpl in Hq;
  repeat (destruct Hq as [Hq|Hq]; [try discriminate Hq; injection Hq as <-|]);
  try contradiction; try apply remove_path_not_in.

(** C1: whatever the outcome (OPTIONS, 405, no file, rejected upload,
    analysis failure, success), every temporary file the analyze-sheet
    handler created while handling the request is gone from the disk when
    the handler returns; the same holds for the Express route. *)
Theorem C1_no_orphaned_temp_file (fs0 : list string) (env : option string) (now : Z)
  (r : reply) (req : request) :
  no_orphan (snd (run (analyze_sheet env now r req) (init fs0))) /\
  no_orphan (snd (run (express_analyze_sheet env now r req) (init fs0))).
Proof.
  split; destruct req as [m [f|]]; exec; orphan_tac.
Qed.

(** Every non-200 response of the serverless handler carries the failure
    envelope [{success: false, message}]. *)
Lemma analyze_sheet_failure_shape (env : option string) (now : Z) (r : reply)
  (req : request) (fs0 : list string) (resp : response) :
  fst (run (analyze_sheet env now r req) (init fs0)) = Ok resp -> status resp <> 200 ->
  exists m, body resp = BodyJson (failure m).
Proof.
  destruct req as [m [f|]]; exec; simpl; intros H; try discriminate H;
    injection H as <-; simpl; intros Hs; try (exfalso; apply Hs; reflexivity); eauto.
Qed.

(** No response body of the serverless handler has an [error] member. *)
Lemma analyze_sheet_no_error_member (env : option string) (now : Z) (r : reply)
  (req : request) (fs0 : list string) (resp : response) (j : json) :
  fst (run (analyze_sheet env now r req) (init fs0)) = Ok resp ->
  body resp = BodyJson j -> member "error" j = None.
Proof.
  destruct req as [m [f|]]; exec; simpl; intros H; try discriminate H;
    injection H as <-; simpl; intros Hb; try discriminate Hb; injection Hb as <-;
    reflexivity.
Qed.

(** The Analysis Client on a stored file: when the model call throws, or
    its cleaned text does not parse, it throws the analysis-failed error
    carrying that cause. *)
Lemma analyzeImage_fails (r : reply) (p : string) (w : world) (c : string) :
  In p (fs w) -> reply_cause r = Some c ->
  fst (analyzeImage r p w) = Throw (analysis_error_prefix ++ c).
Proof.
  intros Hp Hc. destruct w as [fs0 rf lg]. simpl in Hp.
  apply existsb_eqb_In in Hp. unfold reply_cause in Hc.
  exec; try congruence; simpl; congruence.
Qed.

(** Sample inputs. *)
Definition sample_part : file_part := mkPart "image" "sheet.jpg" "image/jpeg" 2048.
Definition pdf_part : file_part := mkPart "image" "sheet.pdf" "application/pdf" 2048.
Definition big_part : file_part := mkPart "image" "sheet.jpg" "image/jpeg" (15 * 1024 * 1024).
Definition photo_part : file_part := mkPart "photo" "sheet.jpg" "image/jpeg" 2048.
Definition fenced_answer : string := "```json" ++ lf ++ dq "{'1':'A'}" ++ lf ++ "```".
Definition answer_1A : json := JObj [(units "1", JStr (units "A"))].

(** C2 (counterexample): a POST whose file has a disallowed content type
    is answered with HTTP 500 and the generic message, not with 400. *)
Lemma C2_invalid_type_answered_500 :
  fst (run (analyze_sheet None 1700 (ReplyText "{}") (mkRequest "POST" (Some pdf_part)))
         (init [])) =
  Ok (mkResponse 500 (BodyJson (failure generic_failure_message))).
Proof. vm_compute. reflexivity. Qed.

(** C2 (amended): a POST without a file part gets 400 with
    "No image file uploaded"; a file with a disallowed content type is
    rejected by the upload filter and, like every error inside the
    handler's try block, answered 500 with the generic message; every
    non-200 body is [{success: false, message}]. *)
Theorem C2_rejections_and_failure_shape (env : option string) (now : Z) (r : reply)
  (fs0 : list string) (f : file_part) :
  (String.eqb (originalname f) EmptyString = false -> fieldname f = "image" ->
   existsb (String.eqb (mimetype f)) allowedTypes = false ->
   fst (run (analyze_sheet env now r (mkRequest "POST" (Some f))) (init fs0)) =
   Ok (mkResponse 500 (BodyJson (failure generic_failure_message)))) /\
  fst (run (analyze_sheet env now r (mkRequest "POST" None)) (init fs0)) =
    Ok (mkResponse 400 (BodyJson (failure no_file_message))) /\
  (forall req resp,
     fst (run (analyze_sheet env now r req) (init fs0)) = Ok resp -> status resp <> 200 ->
     exists m, body resp = BodyJson (failure m)).
Proof.
  split; [|split].
  - intros H1 H2 H3.
    assert (Hf : fileFilter_images f = Some invalid_type_message)
      by (unfold fileFilter_images; rewrite H3; reflexivity).
    assert (Hn : String.eqb (fieldname f) "image" = true)
      by (rewrite H2; reflexivity).
    exec; first [congruence | reflexivity].
  - reflexivity.
  - intros req resp. apply analyze_sheet_failure_shape.
Qed.

Lemma C2_witness :
  (String.eqb (originalname pdf_part) EmptyString = false /\ fieldname pdf_part = "image" /\
   existsb (String.eqb (mimetype pdf_part)) allowedTypes = false) /\
  fst (run (analyze_sheet None 1700 (ReplyText "{}") (mkRequest "POST" (Some pdf_part)))
         (init [])) =
  Ok (mkResponse 500 (BodyJson (failure generic_failure_message))).
Proof.
  split; [repeat split; reflexivity|].
  apply (proj1 (C2_rejections_and_failure_shape None 1700 (ReplyText "{}") [] pdf_part));
    reflexivity.
Defined.

(** C3: a file above the 10 MiB ceiling never reaches the model: neither
    handler constructs the Analysis Client or calls the model, and the
    request is not answered with success. *)
Theorem C3_oversized_never_analyzed (env : option string) (now : Z) (r : reply)
  (f : file_part) (fs0 : list string) :
  max_file_size < size f ->
  (let '(res, w) := run (analyze_sheet env now r (mkRequest "POST" (Some f))) (init fs0) in
   (forall mime, ~ In (EvModelCall mime) (log w)) /\ ~ In EvNewClient (log w) /\
   exists resp, res = Ok resp /\ status resp <> 200) /\
  (let '(res, w) :=
     run (express_analyze_sheet env now r (mkRequest "POST" (Some f))) (init fs0) in
   (forall mime, ~ In (EvModelCall mime) (log w)) /\ ~ In EvNewClient (log w) /\
   exists resp, res = Ok resp /\ status resp <> 200).
Proof.
  intros Hs. assert (Hs' : (max_file_size <=? size f) = true) by (apply Z.leb_le; lia).
  split; exec; try congruence; simpl; (split; [intros mime Hm|split;[intros Hm|]]);
  repeat (destruct Hm as [Hm|Hm]; [discriminate Hm|]); try contradiction;
  eexists; split; try reflexivity; simpl; discriminate.
Qed.

Lemma C3_witness :
  max_file_size < size big_part /\
  (forall mime, ~ In (EvModelCall mime)
     (log (snd (run (analyze_sheet None 1700 (ReplyText "{}")
                       (mkRequest "POST" (Some big_part))) (init []))))).
Proof.
  split; [vm_compute; reflexivity|].
  pose proof (C3_oversized_never_analyzed None 1700 (ReplyText "{}") big_part []
                (eq_refl : max_file_size < size big_part)) as [H _].
  destruct (run (analyze_sheet None 1700 (ReplyText "{}") (mkRequest "POST" (Some big_part)))
              (init [])) as [res w].
  exact (proj1 H).
Defined.

(** C4: a response wrapped in a json-tagged fence and the bare response
    clean to the same text, hence parse to the same value; for the
    example both give [{"1": "A"}]. *)
Theorem C4_fence_invariant_parse (t : string) :
  parse (cleanedText ("```json" ++ lf ++ t ++ lf ++ "```")) = parse (cleanedText t) /\
  parse (cleanedText fenced_answer) = inr answer_1A /\
  parse (cleanedText (dq "{'1':'A'}")) = inr answer_1A.
Proof.
  split; [rewrite cleanedText_fenced; reflexivity|].
  split; vm_compute; reflexivity.
Qed.

(** C5: when the model call throws, or its text does not parse after
    cleanup, the Analysis Client throws the analysis-failed error carrying
    the cause, and the handler answers 500 with the generic message. *)
Theorem C5_upstream_failure_is_500 (env : option string) (now : Z) (r : reply)
  (f : file_part) (fs0 : list string) (c : string) (p : string) (w : world) :
  accepted f = true -> reply_cause r = Some c -> In p (fs w) ->
  fst (analyzeImage r p w) = Throw (analysis_error_prefix ++ c) /\
  fst (run (analyze_sheet env now r (mkRequest "POST" (Some f))) (init fs0)) =
    Ok (mkResponse 500 (BodyJson (failure generic_failure_message))).
Proof.
  intros Ha Hc Hp. split; [apply analyzeImage_fails; assumption|].
  destruct (accepted_spec f Ha) as (H1 & H2 & H3 & H4).
  unfold reply_cause in Hc.
  exec; try congruence; simpl; try congruence.
Qed.

Definition not_json_reply : reply := ReplyText "I cannot determine the answers".

Lemma C5_witness :
  (accepted sample_part = true /\ reply_cause not_json_reply = Some "Unexpected token in JSON" /\
   In "/tmp/1700-sheet.jpg" (fs (init ["/tmp/1700-sheet.jpg"]))) /\
  fst (run (analyze_sheet None 1700 not_json_reply (mkRequest "POST" (Some sample_part)))
         (init [])) =
  Ok (mkResponse 500 (BodyJson (failure generic_failure_message))).
Proof.
  split; [split; [reflexivity|split; [vm_compute; reflexivity|left; reflexivity]]|].
  apply (C5_upstream_failure_is_500 None 1700 not_json_reply sample_part []
           "Unexpected token in JSON" "/tmp/1700-sheet.jpg" (init ["/tmp/1700-sheet.jpg"]));
    [reflexivity | vm_compute; reflexivity | left; reflexivity].
Defined.

(** C6 (counterexample): a multipart body whose only file is sent under
    another field name is not answered 400 but 500: the upload middleware
    rejects the unexpected field. *)
Lemma C6_other_field_answered_500 :
  fst (run (analyze_sheet None 1700 (ReplyText "{}") (mkRequest "POST" (Some photo_part)))
         (init [])) =
  Ok (mkResponse 500 (BodyJson (failure generic_failure_message))).
Proof. vm_compute. reflexivity. Qed.

(** C6 (amended): a POST without any file part, or whose file part has no
    file name, gets 400 with [{success: false, message: "No image file
    uploaded"}]; a file under another field name gets 500 with the
    generic message. *)
Theorem C6_no_file_part_400 (env : option string) (now : Z) (r : reply)
  (fs0 : list string) (f : file_part) :
  fst (run (analyze_sheet env now r (mkRequest "POST" None)) (init fs0)) =
    Ok (mkResponse 400 (BodyJson (failure "No image file uploaded"))) /\
  (originalname f = EmptyString ->
   fst (run (analyze_sheet env now r (mkRequest "POST" (Some f))) (init fs0)) =
     Ok (mkResponse 400 (BodyJson (failure "No image file uploaded")))) /\
  (String.eqb (originalname f) EmptyString = false ->
   String.eqb (fieldname f) "image" = false ->
   fst (run (analyze_sheet env now r (mkRequest "POST" (Some f))) (init fs0)) =
     Ok (mkResponse 500 (BodyJson (failure generic_failure_message)))).
Proof.
  split; [reflexivity|split].
  - intros H.
    assert (H' : String.eqb (originalname f) EmptyString = true) by (rewrite H; reflexivity).
    exec; first [congruence | reflexivity].
  - intros H1 H2.
    exec; first [congruence | reflexivity].
Qed.

Lemma C6_witness :
  (String.eqb (originalname photo_part) EmptyString = false /\
   String.eqb (fieldname photo_part) "image" = false) /\
  fst (run (analyze_sheet None 1700 (ReplyText "{}") (mkRequest "POST" (Some photo_part)))
         (init [])) =
  Ok (mkResponse 500 (BodyJson (failure generic_failure_message))).
Proof.
  split; [split; reflexivity|].
  apply (proj2 (proj2 (C6_no_file_part_400 None 1700 (ReplyText "{}") [] photo_part)));
    reflexivity.
Defined.

(** C7 (counterexample): an upper-case [.PNG] path, which does not end in
    [.png] or [.gif], is sent as [image/png], not [image/jpeg]. *)
Lemma C7_uppercase_png_not_jpeg :
  endsWith "/tmp/1700-sheet.PNG" ".png" = false /\
  endsWith "/tmp/1700-sheet.PNG" ".gif" = false /\
  mimeType_of "/tmp/1700-sheet.PNG" = "image/png".
Proof. vm_compute. repeat split. Qed.

(** C7 (amended): the MIME type depends only on the last four characters
    of the path, compared case-insensitively: [.png] in any letter case
    ([.png], [.PNG], [.Png], ...) gives [image/png], [.gif] in any letter
    case gives [image/gif], everything else (including [.jpg] and [.jpeg])
    gives [image/jpeg]. *)
Theorem C7_mime_by_lowercased_suffix (p a b s : string) :
  mimeType_of (p ++ ".png") = "image/png" /\ mimeType_of (p ++ ".PNG") = "image/png" /\
  mimeType_of (p ++ ".gif") = "image/gif" /\ mimeType_of (p ++ ".GIF") = "image/gif" /\
  mimeType_of (p ++ ".jpg") = "image/jpeg" /\ mimeType_of (p ++ ".jpeg") = "image/jpeg" /\
  (toLowerCase s = ".png" -> mimeType_of (p ++ s) = "image/png") /\
  (toLowerCase s = ".gif" -> mimeType_of (p ++ s) = "image/gif") /\
  ((4 <= String.length s)%nat -> mimeType_of (a ++ s) = mimeType_of (b ++ s)) /\
  (endsWith (toLowerCase p) ".png" = false -> endsWith (toLowerCase p) ".gif" = false ->
   mimeType_of p = "image/jpeg").
Proof.
  unfold mimeType_of. rewrite !toLowerCase_app.
  repeat split; try (rewrite !endsWith_app by (simpl; lia); reflexivity).
  - intros Hs. rewrite Hs. rewrite !endsWith_app by (simpl; lia). reflexivity.
  - intros Hs. rewrite Hs. rewrite !endsWith_app by (simpl; lia). reflexivity.
  - intros Hs.
    rewrite !(endsWith_app _ (toLowerCase s)) by (rewrite toLowerCase_length; simpl; lia).
    reflexivity.
  - intros H1 H2. rewrite H1, H2. reflexivity.
Qed.

Lemma C7_witness :
  toLowerCase ".Png" = ".png" /\
  mimeType_of ("/tmp/1700-sheet" ++ ".Png") = "image/png".
Proof.
  assert (H : toLowerCase ".Png" = ".png") by reflexivity.
  split; [exact H|].
  exact (proj1 (proj2 (proj2 (proj2 (proj2 (proj2 (proj2
    (C7_mime_by_lowercased_suffix "/tmp/1700-sheet" "a" "b" ".Png"))))))) H).
Defined.

(** C8 (failing input): with NODE_ENV set to "development", the
    serverless handler's 500 envelope for a failed model call has no
    [error] member, where the Express route's envelope has one. *)
Lemma C8_serverless_dev_envelope_has_no_error :
  fst (run (analyze_sheet (Some "development") 1700 (ReplyError "quota exceeded")
              (mkRequest "POST" (Some sample_part))) (init [])) =
    Ok (mkResponse 500 (BodyJson (failure generic_failure_message))) /\
  member "error" (failure generic_failure_message) = None.
Proof. split; vm_compute; reflexivity. Qed.

(** C8 (what the code does): the serverless handler never puts the
    underlying error message in a body, whatever NODE_ENV is; the Express
    route's [catch] branch adds [error: <message of the analysis-failed
    error>] exactly when NODE_ENV is "development". *)
Theorem C8_error_member_only_in_express_dev (env : option string) (now : Z) (r : reply)
  (req : request) (fs0 : list string) (resp : response) (j : json) (f : file_part)
  (c : string) :
  (fst (run (analyze_sheet env now r req) (init fs0)) = Ok resp ->
   body resp = BodyJson j -> member "error" j = None) /\
  (accepted f = true -> reply_cause r = Some c ->
   fst (run (express_analyze_sheet (Some "development") now r (mkRequest "POST" (Some f)))
          (init fs0)) =
     Ok (mkResponse 500 (BodyJson
           (JObj [(key "success", JBool false);
                  (key "message", JStr (units generic_failure_message));
                  (key "error", JStr (units (analysis_error_prefix ++ c)))])))) /\
  (is_development env = false -> accepted f = true -> reply_cause r = Some c ->
   fst (run (express_analyze_sheet env now r (mkRequest "POST" (Some f))) (init fs0)) =
     Ok (mkResponse 500 (BodyJson (failure generic_failure_message)))).
Proof.
  split; [apply analyze_sheet_no_error_member|split].
  - intros Ha Hc. destruct (accepted_spec f Ha) as (H1 & H2 & H3 & H4).
    unfold reply_cause in Hc.
    exec; try congruence; simpl; first [congruence | reflexivity].
  - intros Hd Ha Hc. destruct (accepted_spec f Ha) as (H1 & H2 & H3 & H4).
    unfold reply_cause in Hc.
    exec; try congruence; simpl; first [congruence | reflexivity].
Qed.

Lemma C8_witness :
  (accepted sample_part = true /\ reply_cause (ReplyError "quota exceeded") = Some "quota exceeded") /\
  fst (run (express_analyze_sheet (Some "development") 1700 (ReplyError "quota exceeded")
              (mkRequest "POST" (Some sample_part))) (init [])) =
  Ok (mkResponse 500 (BodyJson
        (JObj [(key "success", JBool false);
               (key "message", JStr (units generic_failure_message));
               (key "error", JStr (units (analysis_error_prefix ++ "quota exceeded")))]))).
Proof.
  split; [split; reflexivity|].
  apply (proj1 (proj2 (C8_error_member_only_in_express_dev None 1700
           (ReplyError "quota exceeded") (mkRequest "POST" None) [] (mkResponse 200 BodyEmpty)
           JNull sample_part "quota exceeded"))); reflexivity.
Defined.

(** A valid JSON response with a triple backtick inside a string value. *)
Definition tick_in_string : string := dq "{'1':'```'}".

(** C9: the cleanup removes ["```json"] and ["```"] wherever they occur,
    not only at the ends; so a valid JSON response holding a triple
    backtick inside a string parses to a different value after cleanup. *)
Theorem C9_fences_removed_anywhere (a b : string) :
  no_tick a = true ->
  replace_fences (a ++ "```json" ++ b) = a ++ replace_fences b /\
  (prefix "json" b = false -> replace_fences (a ++ "```" ++ b) = a ++ replace_fences b) /\
  parse tick_in_string = inr (JObj [(units "1", JStr (units "```"))]) /\
  parse (cleanedText tick_in_string) = inr (JObj [(units "1", JStr [])]) /\
  parse (cleanedText tick_in_string) <> parse tick_in_string.
Proof.
  intros Ha. rewrite !replace_fences_no_tick_prefix by exact Ha.
  split; [reflexivity|split].
  - intros Hb. rewrite replace_fences_no_tick_prefix by exact Ha.
    rewrite replace_fences_tick3 by exact Hb. reflexivity.
  - split; [vm_compute; reflexivity|split; [vm_compute; reflexivity|]].
    vm_compute. discriminate.
Qed.

Lemma C9_witness :
  no_tick "{'1':" = true /\
  replace_fences ("{'1':" ++ "```json" ++ "'A'}") = "{'1':'A'}".
Proof.
  split; [reflexivity|].
  refine (proj1 (C9_fences_removed_anywhere "{'1':" "'A'}" _)). reflexivity.
Defined.

(** C10: on a POST without a file part the handler touches nothing: no
    file is written or removed, no Analysis Client is built, no model call
    is made; only the 400 response is produced. *)
Theorem C10_no_file_branch_has_no_effect (env : option string) (now : Z) (r : reply)
  (fs0 : list string) (lg : list event) :
  run (analyze_sheet env now r (mkRequest "POST" None)) (mkWorld fs0 None lg) =
  (Ok (mkResponse 400 (BodyJson (failure no_file_message))), mkWorld fs0 None lg).
Proof. reflexivity. Qed.

End Claims.

(* ------------------------------------------------------------------ *)
(** ** [path.join] on a file name *)

Module PathFacts.
Import Path Multer FenceFacts.

(** No ['/'] occurs in the string. *)
Fixpoint slash_free (s : string) : bool :=
  match s with
  | EmptyString => true
  | String c r => negb (Ascii.eqb c "/") && slash_free r
  end.

(** The part of [path.join(d, x)] in front of a plain file name [x]. *)
Definition dir_prefix (d : string) : string :=
  if String.eqb d "" then ""
  else
    let segs := rev (resolve (negb (first_is_slash d)) d) in
    (if first_is_slash d then "/" else "") ++ join_slash segs ++
    (match segs with [] => "" | _ => "/" end).

Lemma split_slash_nonempty (s : string) : split_slash s <> [].
Proof.
  destruct s as [|c r]; simpl; [discriminate|].
  destruct (Ascii.eqb c "/"); [discriminate|]. destruct (split_slash r); discriminate.
Qed.

Lemma split_slash_app (a x : string) :
  split_slash (a ++ "/" ++ x) = (split_slash a ++ split_slash x)%list.
Proof.
  change ("/" ++ x) with (String "/" x).
  induction a as [|c a IH]; [reflexivity|].
  cbn [append split_slash]. rewrite IH.
  destruct (Ascii.eqb c "/"); [reflexivity|].
  destruct (split_slash a) as [|h t] eqn:E; [exfalso; exact (split_slash_nonempty a E)|].
  reflexivity.
Qed.

Lemma split_slash_free (x : string) : slash_free x = true -> split_slash x = [x].
Proof.
  induction x as [|c x IH]; [reflexivity|].
  simpl. intros H. apply andb_true_iff in H as [H1 H2].
  apply negb_true_iff in H1. rewrite H1, (IH H2). reflexivity.
Qed.

Lemma resolve_segment_plain (b : bool) (st : list string) (x : string) :
  x <> "" -> x <> "." -> x <> ".." -> resolve_segment b st x = x :: st.
Proof.
  intros H1 H2 H3. unfold resolve_segment.
  apply String.eqb_neq in H1, H2, H3. rewrite H1, H2, H3. reflexivity.
Qed.

Lemma join_slash_snoc (l : list string) (x : string) :
  join_slash (l ++ [x])%list = join_slash l ++ (match l with [] => "" | _ => "/" end) ++ x.
Proof.
  induction l as [|s t IH]; [reflexivity|].
  cbn [app]. destruct t as [|s' t'].
  - reflexivity.
  - change (join_slash (s :: (s' :: t') ++ [x])%list) with (s ++ "/" ++ join_slash ((s' :: t') ++ [x])%list).
    rewrite IH. change (join_slash (s :: s' :: t')) with (s ++ "/" ++ join_slash (s' :: t')).
    rewrite !append_assoc_s. reflexivity.
Qed.

Lemma last_is_slash_app (a x : string) : x <> "" -> last_is_slash (a ++ x) = last_is_slash x.
Proof.
  intros Hx. induction a as [|c a IH]; [reflexivity|].
  cbn [append]. rewrite <- IH.
  destruct a as [|c' a']; simpl; [destruct x; [contradiction|reflexivity]|reflexivity].
Qed.

Lemma last_is_slash_free (x : string) : slash_free x = true -> last_is_slash x = false.
Proof.
  induction x as [|c x IH]; [reflexivity|].
  simpl. intros H. apply andb_true_iff in H as [H1 H2]. apply negb_true_iff in H1.
  destruct x; [exact H1|]. apply IH, H2.
Qed.

Lemma first_is_slash_free (x : string) : slash_free x = true -> first_is_slash x = false.
Proof.
  destruct x as [|c x]; [reflexivity|].
  simpl. intros H. apply andb_true_iff in H as [H1 _]. apply negb_true_iff in H1. exact H1.
Qed.

Lemma append_eq_empty (a x : string) : a ++ x = "" -> x = "".
Proof. destruct a; simpl; [auto|discriminate]. Qed.

(** [path.join(d, x)] for a file name [x] that is a single segment. *)
Lemma join_plain (d x : string) :
  slash_free x = true -> x <> "" -> x <> "." -> x <> ".." ->
  join d x = dir_prefix d ++ x.
Proof.
  intros Hs H1 H2 H3. unfold join, dir_prefix.
  pose proof H1 as H1'. apply String.eqb_neq in H1'. rewrite H1'.
  destruct (String.eqb d "") eqn:Ed.
  - unfold normalize, normalizeString, resolve.
    rewrite H1', (first_is_slash_free x Hs), (last_is_slash_free x Hs), (split_slash_free x Hs).
    simpl. rewrite (resolve_segment_plain _ _ _ H1 H2 H3). simpl. rewrite H1'.
    simpl. rewrite append_nil_s. reflexivity.
  - apply String.eqb_neq in Ed.
    assert (Hne : String.eqb (d ++ "/" ++ x) "" = false)
      by (destruct d; [contradiction|reflexivity]).
    assert (Hf : first_is_slash (d ++ "/" ++ x) = first_is_slash d)
      by (destruct d; [contradiction|reflexivity]).
    assert (Hl : last_is_slash (d ++ "/" ++ x) = false).
    { rewrite (last_is_slash_app d ("/" ++ x)) by discriminate.
      rewrite (last_is_slash_app "/" x H1). apply last_is_slash_free, Hs. }
    unfold normalize, normalizeString. rewrite Hne, Hf, Hl.
    assert (Hr : resolve (negb (first_is_slash d)) (d ++ "/" ++ x) =
                 x :: resolve (negb (first_is_slash d)) d).
    { unfold resolve. rewrite split_slash_app, (split_slash_free x Hs), fold_left_app.
      simpl. apply resolve_segment_plain; assumption. }
    rewrite Hr. cbn [rev]. rewrite join_slash_snoc.
    destruct (String.eqb (join_slash (rev (resolve (negb (first_is_slash d)) d)) ++
               (match rev (resolve (negb (first_is_slash d)) d) with [] => "" | _ => "/" end) ++ x) "")
      eqn:Ej.
    + apply String.eqb_eq in Ej. apply append_eq_empty, append_eq_empty in Ej. contradiction.
    + rewrite append_nil_s, !append_assoc_s. reflexivity.
Qed.

Lemma slash_free_app (a b : string) : slash_free (a ++ b) = slash_free a && slash_free b.
Proof. induction a as [|c a IH]; simpl; [reflexivity|]. rewrite IH, andb_assoc. reflexivity. Qed.

Lemma slash_free_uint (u : Decimal.uint) :
  slash_free (DecimalString.NilEmpty.string_of_uint u) = true.
Proof. induction u; simpl; try rewrite IHu; reflexivity. Qed.

Lemma slash_free_string_of_Z (n : Z) : slash_free (string_of_Z n) = true.
Proof.
  unfold string_of_Z. destruct n as [|p|p]; [reflexivity| |];
    simpl; unfold DecimalString.NilZero.string_of_uint;
    destruct (Pos.to_uint p); try reflexivity; apply slash_free_uint.
Qed.

Lemma dash_in_filename (a b : string) :
  forall c, (c = "." \/ c = ".." \/ c = "") -> a ++ String "-" b <> c.
Proof.
  assert (Hd : forall s, existsb (Ascii.eqb "-") (list_ascii_of_string (s ++ String "-" b)) = true).
  { induction s as [|x s IH]; [reflexivity|]. simpl. rewrite IH. apply orb_true_r. }
  intros c Hc H. specialize (Hd a). rewrite H in Hd.
  destruct Hc as [->|[->| ->]]; discriminate Hd.
Qed.

(** The upload path of a file whose name has no ['/'] (busboy reports base
    names only): the destination's prefix, then [<now>-<originalname>]. *)
Lemma disk_path_plain (o : options) (now : Z) (f : file_part) :
  slash_free (originalname f) = true ->
  disk_path o now f = dir_prefix (destination o) ++ filename now f.
Proof.
  intros Hs. unfold disk_path. apply join_plain; unfold filename.
  - rewrite slash_free_app, slash_free_string_of_Z. simpl. exact Hs.
  - apply dash_in_filename. auto.
  - apply dash_in_filename. auto.
  - apply dash_in_filename. auto.
Qed.

End PathFacts.

(* ------------------------------------------------------------------ *)
(** ** Further properties of the handlers and of the scripts *)

Module Extras.
Import JsString Json Effects Gemini Multer Handler EffectFacts FenceFacts Claims PathFacts.

Lemma remove_path_cons_self (p : string) (l : list string) :
  remove_path p (p :: l) = remove_path p l.
Proof. unfold remove_path. simpl. rewrite String.eqb_refl. reflexivity. Qed.

Lemma remove_path_idem (p : string) (l : list string) :
  remove_path p (remove_path p l) = remove_path p l.
Proof.
  unfold remove_path. induction l as [|q l IH]; simpl; [reflexivity|].
  destruct (String.eqb p q) eqn:E; simpl; [exact IH|]. rewrite E. simpl. rewrite IH. reflexivity.
Qed.

(** The events of a successful analysis of the upload stored at [p]. *)
Definition success_log (p : string) : list event :=
  [EvWrite p; EvNewClient; EvReadFile p; EvModelCall (mimeType_of p); EvUnlink p].

(** X: an accepted upload whose model reply cleans to a JSON value [v] is
    answered 200 with [{success: true, data: v}], whatever value [v] is;
    the upload is written, analysed once and removed, in that order. *)
Theorem handlers_success_trace (env : option string) (now : Z) (t : string) (v : json)
  (f : file_part) (fs0 : list string) :
  accepted f = true -> parse (cleanedText t) = inr v ->
  run (analyze_sheet env now (ReplyText t) (mkRequest "POST" (Some f))) (init fs0) =
    (Ok (mkResponse 200 (BodyJson (success v))),
     mkWorld (remove_path (disk_path upload_serverless now f) fs0)
       (Some (disk_path upload_serverless now f)) (success_log (disk_path upload_serverless now f))) /\
  run (express_analyze_sheet env now (ReplyText t) (mkRequest "POST" (Some f))) (init fs0) =
    (Ok (mkResponse 200 (BodyJson (success v))),
     mkWorld (remove_path (disk_path upload_express now f) fs0)
       (Some (disk_path upload_express now f)) (success_log (disk_path upload_express now f))).
Proof.
  intros Ha Hv. destruct (accepted_spec f Ha) as (H1 & H2 & H3 & H4).
  split; exec; try congruence; unfold success_log;
    rewrite ?remove_path_cons_self, ?remove_path_idem; simpl; first [congruence | reflexivity].
Qed.

(** The path the upload of a request is stored at, if it has a file part. *)
Definition upload_path (o : options) (now : Z) (req : request) : option string :=
  match image_part req with
  | Some f => Some (disk_path o now f)
  | None => None
  end.

(** Either nothing was written and the disk is as before, or the upload
    was written at its path [q] and the disk is the disk before without
    [q]. *)
Definition footprint_ok (fs0 : list string) (w : world) (p : option string) : Prop :=
  (fs w = fs0 /\ forall q, ~ In (EvWrite q) (log w)) \/
  (exists q, p = Some q /\ In (EvWrite q) (log w) /\ fs w = remove_path q fs0).

Ltac footprint_tac :=
  unfold footprint_ok; cbn [fs log snd];
  first [left; split; [reflexivity|];
         intros q Hq; simpl in Hq;
         repeat (destruct Hq as [Hq|Hq]; [discriminate Hq|]); contradiction
        | right; eexists; split; [reflexivity|]; split;
          [simpl; tauto | rewrite ?remove_path_cons_self, ?remove_path_idem; reflexivity]].

(** X: a request either writes nothing and leaves the disk as it was, or
    writes its upload at its upload path and leaves the disk as it was
    minus that path: no file outlives the request, no other file is
    removed, and a file that already existed at that path is gone. *)
Theorem handlers_disk_footprint (env : option string) (now : Z) (r : reply)
  (req : request) (fs0 : list string) :
  footprint_ok fs0 (snd (run (analyze_sheet env now r req) (init fs0)))
    (upload_path upload_serverless now req) /\
  footprint_ok fs0 (snd (run (express_analyze_sheet env now r req) (init fs0)))
    (upload_path upload_express now req).
Proof.
  unfold upload_path. split; destruct req as [m [f|]]; exec; footprint_tac.
Qed.

Definition is_model_call (e : event) : bool :=
  match e with EvModelCall _ => true | _ => false end.

Definition is_new_client (e : event) : bool :=
  match e with EvNewClient => true | _ => false end.

Definition at_most_one_analysis (w : world) : Prop :=
  (length (filter is_new_client (log w)) <= 1 /\ length (filter is_model_call (log w)) <= 1)%nat.

(** X: a request builds at most one Analysis Client and calls the model at
    most once: a failed call is not retried. *)
Theorem handlers_single_model_call (env : option string) (now : Z) (r : reply)
  (req : request) (fs0 : list string) :
  at_most_one_analysis (snd (run (analyze_sheet env now r req) (init fs0))) /\
  at_most_one_analysis (snd (run (express_analyze_sheet env now r req) (init fs0))).
Proof.
  unfold at_most_one_analysis. split; destruct req as [m [f|]]; exec; simpl; lia.
Qed.

Lemma mimeType_of_suffix (a s : string) :
  (4 <= String.length s)%nat -> mimeType_of (a ++ s) = mimeType_of s.
Proof.
  intros Hs. unfold mimeType_of. rewrite toLowerCase_app.
  rewrite !(endsWith_app _ (toLowerCase s)) by (rewrite toLowerCase_length; simpl; lia).
  reflexivity.
Qed.

Lemma disk_path_app (o : options) (now : Z) (f : file_part) :
  slash_free (originalname f) = true ->
  disk_path o now f = (dir_prefix (destination o) ++ string_of_Z now ++ "-") ++ originalname f.
Proof.
  intros Hs. rewrite (disk_path_plain o now f Hs). unfold filename.
  rewrite !append_assoc_s. reflexivity.
Qed.

Lemma mimeType_of_disk_path (o : options) (now : Z) (f : file_part) :
  slash_free (originalname f) = true -> (4 <= String.length (originalname f))%nat ->
  mimeType_of (disk_path o now f) = mimeType_of (originalname f).
Proof. intros Hs H. rewrite (disk_path_app o now f Hs). apply mimeType_of_suffix, H. Qed.

(** X: the MIME type sent to the model comes from the upload's original
    file name (its last four characters), never from the content type the
    client declared for the part.  The name is a base name, as busboy
    reports it. *)
Theorem handlers_mime_from_original_name (env : option string) (now : Z) (r : reply)
  (f : file_part) (fs0 : list string) (m : string) :
  slash_free (originalname f) = true -> (4 <= String.length (originalname f))%nat ->
  (In (EvModelCall m)
     (log (snd (run (analyze_sheet env now r (mkRequest "POST" (Some f))) (init fs0)))) ->
   m = mimeType_of (originalname f)) /\
  (In (EvModelCall m)
     (log (snd (run (express_analyze_sheet env now r (mkRequest "POST" (Some f))) (init fs0)))) ->
   m = mimeType_of (originalname f)).
Proof.
  intros Hb Hl.
  pose proof (mimeType_of_disk_path upload_serverless now f Hb Hl) as Hs.
  pose proof (mimeType_of_disk_path upload_express now f Hb Hl) as He.
  cbv delta [upload_serverless upload_express] in Hs, He.
  split; exec; simpl; intros Hm;
    repeat (destruct Hm as [Hm|Hm]; [try discriminate Hm; injection Hm as <-|]);
    try contradiction; first [exact Hs | exact He].
Qed.

(** X: in the Express server a request without a file part gets 400 from
    the route; an upload the middleware refuses (unexpected field, refused
    content type, 10 MiB or more) never reaches the route: Express's error
    handler answers 500 with an error page and no JSON envelope (the page
    says only "Internal Server Error" when NODE_ENV is "production", and
    shows the middleware's error otherwise), and no Analysis Client is
    built. *)
Theorem express_upload_errors (env : option string) (now : Z) (r : reply)
  (f : file_part) (fs0 : list string) :
  run (express_analyze_sheet env now r (mkRequest "POST" None)) (init fs0) =
    (Ok (mkResponse 400 (BodyJson (failure no_file_message))), init fs0) /\
  (String.eqb (originalname f) EmptyString = false ->
   String.eqb (fieldname f) "image" = false ->
   run (express_analyze_sheet env now r (mkRequest "POST" (Some f))) (init fs0) =
     (Ok (mkResponse 500
           (BodyErrorPage (if is_production env then "Internal Server Error" else "Unexpected field"))),
       init fs0)) /\
  (String.eqb (originalname f) EmptyString = false ->
   String.eqb (fieldname f) "image" = true ->
   existsb (String.eqb (mimetype f)) allowedTypes = false ->
   run (express_analyze_sheet env now r (mkRequest "POST" (Some f))) (init fs0) =
     (Ok (mkResponse 500
           (BodyErrorPage (if is_production env then "Internal Server Error" else invalid_type_message))),
       init fs0)) /\
  (String.eqb (originalname f) EmptyString = false ->
   String.eqb (fieldname f) "image" = true ->
   existsb (String.eqb (mimetype f)) allowedTypes = true ->
   max_file_size <= size f ->
   run (express_analyze_sheet env now r (mkRequest "POST" (Some f))) (init fs0) =
     (Ok (mkResponse 500
           (BodyErrorPage (if is_production env then "Internal Server Error" else "File too large"))),
      mkWorld (remove_path (disk_path upload_express now f) fs0) None
        [EvWrite (disk_path upload_express now f); EvUnlink (disk_path upload_express now f)])).
Proof.
  split; [reflexivity|split; [|split]].
  - intros H1 H2. exec; first [congruence | reflexivity].
  - intros H1 H2 H3.
    assert (Hf : fileFilter_images f = Some invalid_type_message)
      by (unfold fileFilter_images; rewrite H3; reflexivity).
    exec; first [congruence | reflexivity].
  - intros H1 H2 H3 H4. apply Z.leb_le in H4.
    assert (Hf : fileFilter_images f = None)
      by (unfold fileFilter_images; rewrite H3; reflexivity).
    exec; try congruence; rewrite ?remove_path_cons_self, ?remove_path_idem;
      first [congruence | reflexivity].
Qed.

Lemma member_error_envelope (dev : bool) (msg : string) :
  member "error"
    (JObj ([(key "success", JBool false);
            (key "message", JStr (units generic_failure_message))] ++
           (if dev then [(key "error", JStr (units msg))] else []))) =
  if dev then Some (JStr (units msg)) else None.
Proof. destruct dev; reflexivity. Qed.

(** X: when a response of the Express route has an [error] member, NODE_ENV
    is "development" and the member is the message of the analysis-failed
    error: ["Failed to analyze image with Gemini API: " + cause]. *)
Theorem express_error_member_prefixed (env : option string) (now : Z) (r : reply)
  (req : request) (fs0 : list string) (resp : response) (j e : json) :
  fst (run (express_analyze_sheet env now r req) (init fs0)) = Ok resp ->
  body resp = BodyJson j -> member "error" j = Some e ->
  is_development env = true /\ exists c, e = JStr (units (analysis_error_prefix ++ c)).
Proof.
  destruct req as [m [f|]]; exec; simpl; intros H; try discriminate H;
    injection H as <-; simpl; intros Hb; try discriminate Hb; injection Hb as <-;
    rewrite ?member_error_envelope; intros Hm; try discriminate Hm;
    injection Hm as <-; eauto.
Qed.

(** X: [analyzeImage] never changes the disk or [req.file]; on a stored
    file it reads the file and calls the model exactly once, with the MIME
    type of the path; on a missing file it calls nothing; every error it
    throws starts with "Failed to analyze image with Gemini API: ". *)
Theorem analyzeImage_effects (r : reply) (p : string) (w : world) :
  let '(res, w') := analyzeImage r p w in
  fs w' = fs w /\ req_file w' = req_file w /\
  (In p (fs w) -> log w' = (log w ++ [EvReadFile p; EvModelCall (mimeType_of p)])%list) /\
  (~ In p (fs w) -> log w' = log w) /\
  (forall e, res = Throw e -> exists c, e = analysis_error_prefix ++ c).
Proof.
  destruct w as [fs0 rf lg]. cbn [fs req_file log].
  destruct (existsb (String.eqb p) fs0) eqn:Hp.
  - pose proof (proj1 (existsb_eqb_In p fs0) Hp) as Hin.
    destruct r as [t|e]; [destruct (parse (cleanedText t)) eqn:E|];
      cbv beta iota zeta delta [analyzeImage try_catch bind readFileSync generateContent
        emit ret throw fs req_file log];
      rewrite Hp; cbv beta iota; rewrite ?E;
      (split; [reflexivity|split; [reflexivity|split; [|split]]]);
      try (intros _; rewrite <- app_assoc; reflexivity);
      try (intros Hn; contradiction);
      intros e' He; try discriminate He; injection He as <-; eexists; reflexivity.
  - assert (Hn : ~ In p fs0) by (rewrite <- existsb_eqb_In, Hp; discriminate).
    cbv beta iota zeta delta [analyzeImage try_catch bind readFileSync throw fs req_file log].
    rewrite Hp. cbv beta iota.
    split; [reflexivity|split; [reflexivity|split; [|split]]].
    + intros Hi. contradiction.
    + intros _. reflexivity.
    + intros e' He. injection He as <-. eexists. reflexivity.
Qed.

(** Three backticks in a row occur nowhere in the string. *)
Fixpoint no_fence (s : string) : bool :=
  match s with
  | String a ((String b (String c _)) as t) => negb (is_tick a && is_tick b && is_tick c) && no_fence t
  | _ => true
  end.

Definition starts_tick (s : string) : bool :=
  match s with
  | String a _ => is_tick a
  | EmptyString => false
  end.

Definition starts_tick2 (s : string) : bool :=
  match s with
  | String a (String b _) => is_tick a && is_tick b
  | _ => false
  end.

Lemma no_fence_cons (c : ascii) (x : string) :
  no_fence (String c x) = negb (is_tick c && starts_tick2 x) && no_fence x.
Proof.
  destruct x as [|a [|b r]]; simpl; destruct (is_tick c); reflexivity.
Qed.

Lemma no_fence_spec (s : string) :
  no_fence s = true -> forall a b, s <> a ++ "```" ++ b.
Proof.
  intros H a b Hs. subst s. revert H. induction a as [|c a IH]; [discriminate|].
  intros H. change (String c a ++ "```" ++ b) with (String c (a ++ "```" ++ b)) in H.
  rewrite no_fence_cons in H. apply andb_true_iff in H as [_ H]. exact (IH H).
Qed.

Lemma no_fence_false (s : string) :
  no_fence s = false -> exists a b, s = a ++ "```" ++ b.
Proof.
  induction s as [|c s IH]; [discriminate|].
  rewrite no_fence_cons. intros H. apply andb_false_iff in H as [H|H].
  - apply negb_false_iff, andb_true_iff in H as [H1 H2].
    destruct s as [|a [|b r]]; try discriminate H2.
    apply andb_true_iff in H2 as [H2 H3]. unfold is_tick in *.
    apply Ascii.eqb_eq in H1, H2, H3. subst. exists EmptyString, r. reflexivity.
  - destruct (IH H) as (a & b & ->). exists (String c a), b. reflexivity.
Qed.

Lemma no_fence_infix (p x q : string) :
  no_fence (p ++ x ++ q) = true -> no_fence x = true.
Proof.
  intros H. destruct (no_fence x) eqn:E; [reflexivity|].
  destruct (no_fence_false x E) as (a & b & ->).
  exfalso. apply (no_fence_spec _ H (p ++ a) (b ++ q)).
  rewrite !append_assoc_s. reflexivity.
Qed.

Lemma replace_fences_short (c1 : ascii) (r1 : string) :
  (String.length r1 < 2)%nat -> replace_fences (String c1 r1) = String c1 (replace_fences r1).
Proof. intros H. destruct r1 as [|c2 [|c3 r3]]; [reflexivity | reflexivity | simpl in H; lia]. Qed.

Lemma starts_tick_replace (r : string) :
  starts_tick (replace_fences r) = true -> starts_tick r = true.
Proof.
  destruct r as [|c1 r1]; [discriminate|]. simpl starts_tick at 2.
  destruct r1 as [|c2 [|c3 r3]]; try (intros H; exact H).
  destruct (is_tick c1 && is_tick c2 && is_tick c3) eqn:T.
  - intros _. apply andb_true_iff in T as [T _]. apply andb_true_iff in T as [T _]. exact T.
  - rewrite replace_fences_no_ticks by exact T. intros H. exact H.
Qed.

Lemma starts_tick2_replace (r : string) :
  starts_tick2 (replace_fences r) = true -> starts_tick2 r = true.
Proof.
  destruct r as [|c1 r1]; [discriminate|].
  destruct r1 as [|c2 [|c3 r3]]; try (intros H; exact H).
  destruct (is_tick c1 && is_tick c2 && is_tick c3) eqn:T.
  - intros _. apply andb_true_iff in T as [T _]. exact T.
  - rewrite replace_fences_no_ticks by exact T. intros H.
    pose proof (starts_tick_replace (String c2 (String c3 r3))) as Hs.
    destruct (replace_fences (String c2 (String c3 r3))) as [|b y]; [discriminate H|].
    simpl in H, Hs |- *. apply andb_true_iff in H as [H1 H2].
    rewrite H1. exact (Hs H2).
Qed.

Lemma replace_fences_no_fence_n (n : nat) : forall s, (String.length s < n)%nat ->
  no_fence (replace_fences s) = true.
Proof.
  induction n as [|n IH]; intros s Hn; [simpl in Hn; lia|].
  destruct s as [|c1 r1]; [reflexivity|].
  destruct r1 as [|c2 [|c3 r3]]; [reflexivity | reflexivity |].
  destruct (is_tick c1 && is_tick c2 && is_tick c3) eqn:T.
  - rewrite replace_fences_ticks by exact T.
    destruct r3 as [|c4 [|c5 [|c6 [|c7 r7]]]]; try (apply IH; simpl in *; lia).
    destruct (is_json c4 c5 c6 c7); apply IH; simpl in *; lia.
  - rewrite replace_fences_no_ticks by exact T. rewrite no_fence_cons.
    rewrite (IH (String c2 (String c3 r3))) by (simpl in *; lia).
    destruct (is_tick c1) eqn:T1; [|reflexivity].
    destruct (starts_tick2 (replace_fences (String c2 (String c3 r3)))) eqn:T2; [|reflexivity].
    apply starts_tick2_replace in T2. cbn [starts_tick2] in T2. cbn [andb] in T. congruence.
Qed.

Lemma replace_fences_no_fence (s : string) : no_fence (replace_fences s) = true.
Proof. apply (replace_fences_no_fence_n (S (String.length s))). lia. Qed.

Lemma replace_fences_id (s : string) : no_fence s = true -> replace_fences s = s.
Proof.
  induction s as [|c1 r1 IH]; [reflexivity|].
  rewrite no_fence_cons. intros H. apply andb_true_iff in H as [H1 H2].
  destruct r1 as [|c2 [|c3 r3]]; [reflexivity | reflexivity |].
  rewrite replace_fences_no_ticks by (simpl in H1; rewrite andb_assoc in H1;
    apply negb_true_iff in H1; exact H1).
  rewrite (IH H2). reflexivity.
Qed.

Lemma rev_string_involutive (x : string) : rev_string (rev_string x) = x.
Proof.
  induction x as [|c x IH]; [reflexivity|]. simpl. rewrite rev_string_app, IH. reflexivity.
Qed.

Lemma trim_start_suffix (x : string) : exists p, x = p ++ trim_start x.
Proof.
  induction x as [|c x [p Hp]]; [exists EmptyString; reflexivity|]. simpl.
  destruct (is_trim_space c).
  - exists (String c p). simpl. rewrite <- Hp. reflexivity.
  - exists EmptyString. reflexivity.
Qed.

Lemma trim_end_prefix (x : string) : exists q, x = trim_end x ++ q.
Proof.
  destruct (trim_start_suffix (rev_string x)) as [p Hp].
  exists (rev_string p). unfold trim_end.
  rewrite <- rev_string_app, <- Hp, rev_string_involutive. reflexivity.
Qed.

Lemma trim_infix (x : string) : exists p q, x = p ++ trim x ++ q.
Proof.
  destruct (trim_start_suffix x) as [p Hp].
  destruct (trim_end_prefix (trim_start x)) as [q Hq].
  exists p, q. unfold trim. rewrite <- Hq. exact Hp.
Qed.

Lemma trim_start_idem (x : string) : trim_start (trim_start x) = trim_start x.
Proof.
  induction x as [|c x IH]; [reflexivity|]. simpl.
  destruct (is_trim_space c) eqn:E; [exact IH|]. simpl. rewrite E. reflexivity.
Qed.

Lemma trim_start_head (x : string) (c : ascii) (r : string) :
  trim_start x = String c r -> is_trim_space c = false.
Proof.
  induction x as [|d x IH]; [discriminate|]. simpl.
  destruct (is_trim_space d) eqn:E; [exact IH|]. intros H. injection H as <- _. exact E.
Qed.

Lemma trim_start_app (x y : string) :
  trim_start (x ++ y) =
  match trim_start x with
  | EmptyString => trim_start y
  | z => z ++ y
  end.
Proof.
  induction x as [|c x IH]; [reflexivity|]. simpl.
  destruct (is_trim_space c); [exact IH | reflexivity].
Qed.

Lemma trim_end_cons (c : ascii) (r : string) :
  is_trim_space c = false ->
  trim_end (String c r) = String c (rev_string (trim_start (rev_string r))).
Proof.
  intros Hc. unfold trim_end. simpl rev_string at 2. rewrite trim_start_app.
  destruct (trim_start (rev_string r)) as [|d z] eqn:E.
  - simpl. rewrite Hc. reflexivity.
  - rewrite rev_string_app. reflexivity.
Qed.

Lemma trim_end_idem (y : string) : trim_end (trim_end y) = trim_end y.
Proof.
  unfold trim_end. rewrite rev_string_involutive, trim_start_idem. reflexivity.
Qed.

Lemma trim_idem (x : string) : trim (trim x) = trim x.
Proof.
  unfold trim. destruct (trim_start x) as [|c r] eqn:E; [reflexivity|].
  pose proof (trim_start_head x c r E) as Hc.
  rewrite (trim_end_cons c r Hc). simpl. rewrite Hc.
  rewrite <- (trim_end_cons c r Hc). apply trim_end_idem.
Qed.

(** X: the text handed to [JSON.parse] never contains three backticks in
    a row: removing fences cannot join backticks into a new fence. *)
Theorem cleanedText_has_no_fence (t a b : string) :
  cleanedText t <> a ++ "```" ++ b.
Proof.
  intros H. unfold cleanedText in H.
  destruct (trim_infix (replace_fences t)) as (p & q & Hpq).
  apply (no_fence_spec _ (replace_fences_no_fence t) (p ++ a) (b ++ q)).
  rewrite Hpq, H. rewrite !append_assoc_s. reflexivity.
Qed.

(** X: cleaning is idempotent: cleaning an already cleaned text changes
    nothing. *)
Theorem cleanedText_idempotent (t : string) :
  cleanedText (cleanedText t) = cleanedText t.
Proof.
  unfold cleanedText.
  destruct (trim_infix (replace_fences t)) as (p & q & Hpq).
  assert (Hn : no_fence (trim (replace_fences t)) = true).
  { apply (no_fence_infix p _ q). rewrite <- Hpq. apply replace_fences_no_fence. }
  rewrite (replace_fences_id _ Hn). apply trim_idem.
Qed.

Lemma decode_string_of_int (d : Decimal.int) :
  option_map Z.of_int (DecimalString.NilZero.int_of_string (DecimalString.NilZero.string_of_int d)) =
  Some (Z.of_int d).
Proof.
  destruct d as [u|u]; destruct u; try reflexivity;
    rewrite DecimalString.NilZero.isi by discriminate; reflexivity.
Qed.

Lemma string_of_Z_inj (a b : Z) : string_of_Z a = string_of_Z b -> a = b.
Proof.
  unfold string_of_Z. intros H.
  pose proof (decode_string_of_int (Z.to_int a)) as Ha.
  pose proof (decode_string_of_int (Z.to_int b)) as Hb.
  rewrite H, Hb in Ha. injection Ha as Ha.
  rewrite !DecimalZ.of_to in Ha. symmetry. exact Ha.
Qed.

Fixpoint dash_free (s : string) : bool :=
  match s with
  | EmptyString => true
  | String c r => negb (Ascii.eqb c "-") && dash_free r
  end.

Lemma dash_free_uint (u : Decimal.uint) : dash_free (DecimalString.NilEmpty.string_of_uint u) = true.
Proof. induction u; simpl; try rewrite IHu; reflexivity. Qed.

Lemma dash_free_string_of_Z (n : Z) : 0 <= n -> dash_free (string_of_Z n) = true.
Proof.
  intros H. unfold string_of_Z. destruct n as [|p|p]; [reflexivity| |lia].
  simpl. unfold DecimalString.NilZero.string_of_uint.
  destruct (Pos.to_uint p); try reflexivity; apply dash_free_uint.
Qed.

Lemma split_at_dash (a b c d : string) :
  dash_free a = true -> dash_free c = true ->
  a ++ String "-" b = c ++ String "-" d -> a = c /\ b = d.
Proof.
  revert c. induction a as [|x a IH]; intros c Ha Hc H; destruct c as [|y c]; simpl in *.
  - injection H as ->. split; reflexivity.
  - injection H as <- _. discriminate Hc.
  - injection H as -> _. discriminate Ha.
  - apply andb_true_iff in Ha as [_ Ha]. apply andb_true_iff in Hc as [_ Hc].
    injection H as <- H. destruct (IH c Ha Hc H) as [-> ->]. split; reflexivity.
Qed.

Lemma append_cancel_l (x y z : string) : x ++ y = x ++ z -> y = z.
Proof. induction x as [|c x IH]; simpl; [auto | intros H; injection H; exact IH]. Qed.

(** X: for non-negative timestamps and file names without ['/'] (busboy
    reports base names), two uploads are stored at the same path exactly
    when they arrive in the same millisecond under the same original file
    name. *)
Theorem disk_path_collision (o : options) (n1 n2 : Z) (f1 f2 : file_part) :
  0 <= n1 -> 0 <= n2 ->
  slash_free (originalname f1) = true -> slash_free (originalname f2) = true ->
  disk_path o n1 f1 = disk_path o n2 f2 <-> n1 = n2 /\ originalname f1 = originalname f2.
Proof.
  intros H1 H2 Hs1 Hs2. rewrite (disk_path_plain o n1 f1 Hs1), (disk_path_plain o n2 f2 Hs2).
  unfold filename. split.
  - intros H. apply append_cancel_l in H.
    change ("-" ++ ?x) with (String "-" x) in H.
    destruct (split_at_dash _ _ _ _ (dash_free_string_of_Z n1 H1) (dash_free_string_of_Z n2 H2) H)
      as [Hn Ho].
    split; [apply string_of_Z_inj, Hn | exact Ho].
  - intros [-> ->]. reflexivity.
Qed.

(** X: a model reply that is empty once cleaned (blank, or nothing but
    fences and white space) is not valid JSON: the serverless handler
    answers 500 with the generic message and the Express route answers 500. *)
Theorem blank_reply_fails (env : option string) (now : Z) (t : string) (f : file_part)
  (fs0 : list string) :
  accepted f = true -> cleanedText t = EmptyString ->
  fst (run (analyze_sheet env now (ReplyText t) (mkRequest "POST" (Some f))) (init fs0)) =
    Ok (mkResponse 500 (BodyJson (failure generic_failure_message))) /\
  exists b,
    fst (run (express_analyze_sheet env now (ReplyText t) (mkRequest "POST" (Some f))) (init fs0)) =
    Ok (mkResponse 500 b).
Proof.
  intros Ha Ht. destruct (accepted_spec f Ha) as (H1 & H2 & H3 & H4).
  assert (Hp : parse (cleanedText t) = inl "Unexpected token in JSON") by (rewrite Ht; reflexivity).
  split; exec; try congruence; simpl; first [congruence | reflexivity | eexists; reflexivity].
Qed.

(** Sample inputs. *)
Definition edge_part : file_part := mkPart "image" "scan.png" "image/jpeg" (max_file_size - 1).
Definition jpg_named_png : file_part := mkPart "image" "scan.jpg" "image/png" 2048.
Definition refused_part : file_part := mkPart "image" "sheet.pdf" "application/pdf" 2048.
Definition good_part : file_part := mkPart "image" "sheet.jpg" "image/jpeg" 2048.
Definition same_name_part : file_part := mkPart "image" "sheet.jpg" "image/png" 4096.
Definition empty_fence : string := "```json" ++ lf ++ "```".

Lemma handlers_success_trace_witness :
  (accepted edge_part = true /\ parse (cleanedText "null") = inr JNull) /\
  run (analyze_sheet None 1700 (ReplyText "null") (mkRequest "POST" (Some edge_part))) (init []) =
    (Ok (mkResponse 200 (BodyJson (success JNull))),
     mkWorld (remove_path (disk_path upload_serverless 1700 edge_part) [])
       (Some (disk_path upload_serverless 1700 edge_part))
       (success_log (disk_path upload_serverless 1700 edge_part))).
Proof.
  split; [split; vm_compute; reflexivity|].
  refine (proj1 (handlers_success_trace None 1700 "null" JNull edge_part [] _ _));
    vm_compute; reflexivity.
Defined.

Lemma handlers_mime_from_original_name_witness :
  (slash_free (originalname jpg_named_png) = true /\
   (4 <= String.length (originalname jpg_named_png))%nat) /\
  In (EvModelCall "image/jpeg")
    (log (snd (run (analyze_sheet None 1700 (ReplyText "{}") (mkRequest "POST" (Some jpg_named_png)))
                 (init [])))) /\
  "image/jpeg" = mimeType_of (originalname jpg_named_png).
Proof.
  assert (Hb : slash_free (originalname jpg_named_png) = true) by reflexivity.
  assert (Hl : (4 <= String.length (originalname jpg_named_png))%nat) by (simpl; lia).
  assert (Hin : In (EvModelCall "image/jpeg")
    (log (snd (run (analyze_sheet None 1700 (ReplyText "{}") (mkRequest "POST" (Some jpg_named_png)))
                 (init []))))).
  { vm_compute. repeat (first [left; reflexivity | right]). }
  split; [split; [exact Hb | exact Hl] | split; [exact Hin|]].
  exact (proj1 (handlers_mime_from_original_name None 1700 (ReplyText "{}") jpg_named_png []
                  "image/jpeg" Hb Hl) Hin).
Defined.

Lemma express_upload_errors_witness :
  (String.eqb (originalname refused_part) EmptyString = false /\
   String.eqb (fieldname refused_part) "image" = true /\
   existsb (String.eqb (mimetype refused_part)) allowedTypes = false) /\
  run (express_analyze_sheet None 1700 (ReplyText "{}") (mkRequest "POST" (Some refused_part))) (init []) =
    (Ok (mkResponse 500 (BodyErrorPage invalid_type_message)), init []).
Proof.
  split; [repeat split; reflexivity|].
  refine (proj1 (proj2 (proj2 (express_upload_errors None 1700 (ReplyText "{}") refused_part [])))
            _ _ _); reflexivity.
Defined.

Definition dev_envelope : json :=
  JObj [(key "success", JBool false);
        (key "message", JStr (units generic_failure_message));
        (key "error", JStr (units (analysis_error_prefix ++ "quota exceeded")))].

Lemma express_error_member_prefixed_witness :
  (fst (run (express_analyze_sheet (Some "development") 1700 (ReplyError "quota exceeded")
               (mkRequest "POST" (Some good_part))) (init [])) =
     Ok (mkResponse 500 (BodyJson dev_envelope)) /\
   member "error" dev_envelope = Some (JStr (units (analysis_error_prefix ++ "quota exceeded")))) /\
  is_development (Some "development") = true /\
  exists c, JStr (units (analysis_error_prefix ++ "quota exceeded")) = JStr (units (analysis_error_prefix ++ c)).
Proof.
  split; [split; vm_compute; reflexivity|].
  refine (express_error_member_prefixed (Some "development") 1700 (ReplyError "quota exceeded")
            (mkRequest "POST" (Some good_part)) [] (mkResponse 500 (BodyJson dev_envelope))
            dev_envelope (JStr (units (analysis_error_prefix ++ "quota exceeded"))) _ _ _);
    vm_compute; reflexivity.
Defined.

Lemma cleanedText_has_no_fence_witness :
  cleanedText ("``" ++ "```json" ++ "`") <> "``" ++ "```" ++ EmptyString.
Proof. exact (cleanedText_has_no_fence ("``" ++ "```json" ++ "`") "``" EmptyString). Defined.

Lemma disk_path_collision_witness :
  (0 <= 1700 /\ 0 <= 1700 /\ slash_free (originalname good_part) = true /\
   slash_free (originalname same_name_part) = true) /\
  disk_path upload_serverless 1700 good_part = disk_path upload_serverless 1700 same_name_part.
Proof.
  assert (H : 0 <= 1700) by lia.
  assert (Hs : slash_free (originalname good_part) = true) by reflexivity.
  split; [repeat split; first [exact H | reflexivity]|].
  apply (proj2 (disk_path_collision upload_serverless 1700 1700 good_part same_name_part
                  H H Hs Hs)).
  split; reflexivity.
Defined.

Lemma blank_reply_fails_witness :
  (accepted good_part = true /\ cleanedText empty_fence = EmptyString) /\
  fst (run (analyze_sheet None 1700 (ReplyText empty_fence) (mkRequest "POST" (Some good_part))) (init [])) =
    Ok (mkResponse 500 (BodyJson (failure generic_failure_message))).
Proof.
  split; [split; vm_compute; reflexivity|].
  refine (proj1 (blank_reply_fails None 1700 empty_fence good_part [] _ _)); vm_compute; reflexivity.
Defined.

End Extras.

(* ------------------------------------------------------------------ *)
(** ** Properties of [getLocalIP], of the [GeminiService] constructor and of
    [listModels] *)

Module ScriptFacts.
Import JsString Json Console Server ListModels.

Lemma find_app {A} (p : A -> bool) (l1 l2 : list A) :
  find p (l1 ++ l2) = match find p l1 with Some x => Some x | None => find p l2 end.
Proof.
  induction l1 as [|x l1 IH]; simpl; [reflexivity|]. destruct (p x); [reflexivity | exact IH].
Qed.

Lemma scan_ifaces_find (l : list iface) :
  scan_ifaces l = option_map address (find external_ipv4 l).
Proof.
  induction l as [|i l IH]; simpl; [reflexivity|]. destruct (external_ipv4 i); [reflexivity | exact IH].
Qed.

Lemma scan_names_find (interfaces : list (string * list iface)) :
  scan_names interfaces = option_map address (find external_ipv4 (concat (map snd interfaces))).
Proof.
  induction interfaces as [|[n ifs] r IH]; simpl; [reflexivity|].
  rewrite find_app, scan_ifaces_find. destruct (find external_ipv4 ifs); [reflexivity | exact IH].
Qed.

(** X: [getLocalIP] returns the address of the first non-internal IPv4
    entry, in interface order and then entry order, and ["localhost"] when
    there is none; it never returns an internal or non-IPv4 address. *)
Theorem getLocalIP_first_external (interfaces : list (string * list iface)) :
  getLocalIP interfaces =
    match find external_ipv4 (concat (map snd interfaces)) with
    | Some i => address i
    | None => "localhost"
    end /\
  ((getLocalIP interfaces = "localhost" /\
    forall i, In i (concat (map snd interfaces)) -> external_ipv4 i = false) \/
   exists i, In i (concat (map snd interfaces)) /\
     family i = "IPv4" /\ internal i = false /\ getLocalIP interfaces = address i).
Proof.
  assert (H : getLocalIP interfaces =
    match find external_ipv4 (concat (map snd interfaces)) with
    | Some i => address i
    | None => "localhost"
    end).
  { unfold getLocalIP. rewrite scan_names_find.
    destruct (find external_ipv4 (concat (map snd interfaces))); reflexivity. }
  split; [exact H|]. rewrite H.
  destruct (find external_ipv4 (concat (map snd interfaces))) as [i|] eqn:E.
  - right. apply find_some in E as [Hin He]. exists i.
    unfold external_ipv4 in He. apply andb_true_iff in He as [Hf Hi].
    apply String.eqb_eq in Hf. apply negb_true_iff in Hi. auto.
  - left. split; [reflexivity|]. intros i Hi. exact (find_none _ _ E i Hi).
Qed.

Lemma eqb_empty_length (k : string) : String.eqb k EmptyString = (String.length k =? 0)%nat.
Proof. destruct k; reflexivity. Qed.

(** X: the constructor's console output depends on the API key only
    through its length and its first four characters; an unset or empty
    GEMINI_MODEL selects "gemini-2.5-flash", which is logged. *)
Theorem constructor_output (k1 k2 : string) (env_model : option string) :
  (String.length k1 = String.length k2 -> substring 0 4 k1 = substring 0 4 k2 ->
   fst (GeminiConfig.constructor (Some k1) env_model) =
   fst (GeminiConfig.constructor (Some k2) env_model)) /\
  (env_model = None \/ env_model = Some EmptyString ->
   GeminiConfig.modelName (snd (GeminiConfig.constructor (Some k1) env_model)) = "gemini-2.5-flash" /\
   In (LogLine "GeminiService: Using model: gemini-2.5-flash")
      (fst (GeminiConfig.constructor (Some k1) env_model))).
Proof.
  split.
  - intros Hl Hs. unfold GeminiConfig.constructor, falsy. simpl fst.
    rewrite !eqb_empty_length, Hl, Hs. reflexivity.
  - intros [-> | ->]; split; try reflexivity; right; left; reflexivity.
Qed.

Lemma print_models_model_line (l : list model_info) (x : string) :
  In (LogLine (model_line x)) (print_models l) <->
  exists m, In m l /\ supports_generateContent m = true /\ name m = x.
Proof.
  induction l as [|m l IH]; cbn [print_models In].
  - split; [intros [] | intros (m & Hm & _); destruct Hm].
  - unfold supports_generateContent at 1.
    rewrite in_app_iff, IH.
    destruct (supportedGenerationMethods m) as [ms|] eqn:Em;
      [destruct (existsb (String.eqb "generateContent") ms) eqn:Eg|].
    + cbn [In app]. split.
      * intros [[H|[H|[H|[H|[H|[]]]]]]|H].
        -- exists m. split; [left; reflexivity|]. unfold supports_generateContent.
           rewrite Em. split; [exact Eg | injection H as H; exact H].
        -- injection H as H. unfold model_line in H. discriminate H.
        -- injection H as H. unfold model_line in H. discriminate H.
        -- injection H as H. unfold model_line in H. discriminate H.
        -- injection H as H. unfold model_line in H. discriminate H.
        -- destruct H as (m' & Hm' & Hs & Hn). exists m'. auto.
      * intros (m' & [<-|Hm'] & Hs & Hn); [left; left; rewrite Hn; reflexivity|].
        right. exists m'. auto.
    + cbn [In app]. split.
      * intros [[]|(m' & Hm' & Hs & Hn)]. exists m'. auto.
      * intros (m' & [<-|Hm'] & Hs & Hn).
        -- unfold supports_generateContent in Hs. rewrite Em, Eg in Hs. discriminate Hs.
        -- right. exists m'. auto.
    + cbn [In app]. split.
      * intros [[]|(m' & Hm' & Hs & Hn)]. exists m'. auto.
      * intros (m' & [<-|Hm'] & Hs & Hn).
        -- unfold supports_generateContent in Hs. rewrite Em in Hs. discriminate Hs.
        -- right. exists m'. auto.
Qed.

Lemma catch_block_no_model_line (msg x : string) : ~ In (LogLine (model_line x)) (catch_block msg).
Proof. simpl. intros [H|[H|[]]]; discriminate H. Qed.

(** X: with an API key set and an OK response, the script prints a
    "Model:" line for a name exactly when some model of that name lists
    generateContent among its supported methods (models without the list
    are skipped); a failed request prints no model. *)
Theorem listModels_prints_generateContent_models (k : string) (s : Z)
  (models : list model_info) (b : models_body) (x : string) :
  k <> EmptyString ->
  (In (LogLine (model_line x)) (listModels (Some k) (FetchResponse true s (ModelsArray models))) <->
   exists m, In m models /\ supports_generateContent m = true /\ name m = x) /\
  ~ In (LogLine (model_line x)) (listModels (Some k) (FetchResponse false s b)).
Proof.
  intros Hk. apply String.eqb_neq in Hk.
  unfold listModels, falsy. rewrite Hk. simpl negb. cbv iota.
  split.
  - rewrite <- print_models_model_line. rewrite !in_app_iff. simpl. split.
    + intros [[H|[H|[H|[]]]]|[[H|[H|[]]]|H]]; try discriminate H; try exact H;
        injection H as H; unfold model_line in H; simpl in H; discriminate H.
    + intros H. right. right. exact H.
  - rewrite in_app_iff. intros [[H|[H|[H|[]]]]|H];
      [injection H as H; unfold model_line in H; simpl in H; discriminate H
      |injection H as H; unfold model_line in H; simpl in H; discriminate H
      |discriminate H
      |exact (catch_block_no_model_line _ _ H)].
Qed.

(** X: without an API key (unset or empty) the script prints one error
    line and fetches nothing; with a key, what it prints depends on the key
    only through its first ten characters (the full key only goes into the
    request URL). *)
Theorem listModels_key_handling (k1 k2 : string) (resp : fetch_outcome) :
  listModels None resp = [ErrorLine "Error: GEMINI_API_KEY not found in .env file"] /\
  listModels (Some EmptyString) resp = [ErrorLine "Error: GEMINI_API_KEY not found in .env file"] /\
  (k1 <> EmptyString -> k2 <> EmptyString -> substring 0 10 k1 = substring 0 10 k2 ->
   filter is_console (listModels (Some k1) resp) = filter is_console (listModels (Some k2) resp)).
Proof.
  split; [reflexivity | split; [reflexivity|]].
  intros H1 H2 Hs. apply String.eqb_neq in H1, H2.
  unfold listModels, falsy. rewrite H1, H2, Hs. reflexivity.
Qed.

(** Sample inputs. *)
Definition sample_interfaces : list (string * list iface) :=
  [("lo", [mkIface "IPv4" true "127.0.0.1"; mkIface "IPv6" true "::1"]);
   ("eth0", [mkIface "IPv6" false "fe80::1"; mkIface "IPv4" false "192.168.1.5"]);
   ("wlan0", [mkIface "IPv4" false "10.0.0.7"])].

Lemma getLocalIP_first_external_witness :
  getLocalIP sample_interfaces = "192.168.1.5" /\
  getLocalIP sample_interfaces =
    match find external_ipv4 (concat (map snd sample_interfaces)) with
    | Some i => address i
    | None => "localhost"
    end.
Proof.
  split; [vm_compute; reflexivity|].
  exact (proj1 (getLocalIP_first_external sample_interfaces)).
Defined.

Lemma constructor_output_witness :
  (String.length "AIzaSyA1" = String.length "AIzaSyB2" /\
   substring 0 4 "AIzaSyA1" = substring 0 4 "AIzaSyB2") /\
  fst (GeminiConfig.constructor (Some "AIzaSyA1") None) =
  fst (GeminiConfig.constructor (Some "AIzaSyB2") None).
Proof.
  split; [split; reflexivity|].
  refine (proj1 (constructor_output "AIzaSyA1" "AIzaSyB2" None) _ _); reflexivity.
Defined.

Definition flash : model_info :=
  mkModel "models/gemini-2.5-flash" "Gemini 2.5 Flash" "Fast model"
    (Some ["generateContent"; "countTokens"]).
Definition embedder : model_info :=
  mkModel "models/embedding-001" "Embedding 001" "Embeddings" (Some ["embedContent"]).
Definition legacy : model_info := mkModel "models/legacy" "Legacy" "Old" None.

Lemma listModels_prints_generateContent_models_witness :
  "AIzaKEY" <> EmptyString /\
  In (LogLine (model_line "models/gemini-2.5-flash"))
    (listModels (Some "AIzaKEY") (FetchResponse true 200 (ModelsArray [embedder; legacy; flash]))).
Proof.
  assert (Hk : "AIzaKEY" <> EmptyString) by discriminate. split; [exact Hk|].
  apply (proj1 (listModels_prints_generateContent_models "AIzaKEY" 200 [embedder; legacy; flash]
                  (ModelsArray []) "models/gemini-2.5-flash" Hk)).
  exists flash. split; [right; right; left; reflexivity | split; reflexivity].
Defined.

Lemma listModels_key_handling_witness :
  ("AIzaSyA1234567890" <> EmptyString /\ "AIzaSyA123zzzz" <> EmptyString /\
   substring 0 10 "AIzaSyA1234567890" = substring 0 10 "AIzaSyA123zzzz") /\
  filter is_console (listModels (Some "AIzaSyA1234567890") (FetchResponse false 403 (ModelsArray []))) =
  filter is_console (listModels (Some "AIzaSyA123zzzz") (FetchResponse false 403 (ModelsArray []))).
Proof.
  split; [split; [discriminate | split; [discriminate | reflexivity]]|].
  refine (proj2 (proj2 (listModels_key_handling "AIzaSyA1234567890" "AIzaSyA123zzzz"
                          (FetchResponse false 403 (ModelsArray [])))) _ _ _);
    first [discriminate | reflexivity].
Defined.

End ScriptFacts.
